(** * Azure DNS provider of lego (providers/dns/azure): DNS-01 challenge workflow

    A shallow embedding of [provider.go] (the [dnsProvider] methods [Present],
    [CleanUp], [getHostedZoneID]), of the provider construction
    ([NewDefaultConfig], [NewDNSProvider], [NewDNSProviderConfig]) and of the
    [to] helper package, followed by the properties of the challenge workflow.

    The Azure SDK clients, the [dns01] helpers and the [env] reader are
    collaborators of the provider: they are taken as parameters, and a
    reference in-memory record-set store is given further down for the
    properties that speak about sequences of calls. *)

From Stdlib Require Import ZArith Ascii String List.
From stdpp Require Import base gmap sets list strings.

Local Open Scope string_scope.
Local Open Scope Z_scope.
Local Open Scope list_scope.

#[local] Set Warnings "-clear-no-such-hyp".

(** ** Go errors *)

(** The three shapes of error value the provider meets: an opaque error
    ([errors.New], or [fmt.Errorf] without [%w]), the SDK's
    [*azcore.ResponseError], and an error wrapping another one
    ([fmt.Errorf("<prefix>%w", err)]). *)
Inductive error : Type :=
| ErrorString (msg : string)
| ResponseError (StatusCode : Z) (msg : string)
| WrapError (prefix : string) (err : error).

(** [err.Error()] *)
Fixpoint Error (e : error) : string :=
  match e with
  | ErrorString msg => msg
  | ResponseError _ msg => msg
  | WrapError p err => p +:+ Error err
  end.

(** [errors.As(err, &detailed)] with [detailed : *azcore.ResponseError]:
    the first response error of the chain, found by unwrapping. *)
Fixpoint errors_As_ResponseError (e : error) : option Z :=
  match e with
  | ErrorString _ => None
  | ResponseError code _ => Some code
  | WrapError _ err => errors_As_ResponseError err
  end.

Definition http_StatusNotFound : Z := 404.

(** The test of [Present] on a failed read,
    [!errors.As(err, &detailed) || detailed.StatusCode != http.StatusNotFound]:
    [true] when the error is fatal. *)
Definition read_error_is_fatal (err : error) : bool :=
  match errors_As_ResponseError err with
  | None => true
  | Some code => negb (code =? http_StatusNotFound)
  end.

(** [fmt.Errorf("azure: %w", err)] *)
Definition azure_Errorf (err : error) : error := WrapError "azure: " err.

(** ** Package [to] *)

Module to.
(** [to.String]: the pointed string, the empty string for a nil pointer. *)
Definition String (s : option string) : string :=
  match s with
  | Some v => v
  | None => ""
  end.

(** [to.Int64Ptr] *)
Definition Int64Ptr (i : Z) : option Z := Some i.
End to.

(** ** Data of the SDK ([armdns], [azcore/cloud]) as the provider reads it *)

(** [cloud.Configuration]: the three well-known clouds and a configuration
    given by its authority host (the German cloud of [NewDNSProvider]). *)
Inductive cloud_Configuration : Type :=
| AzurePublic
| AzureChina
| AzureGovernment
| CustomCloud (ActiveDirectoryAuthorityHost : string).

(** [azcore.ClientOptions], reduced to the field the provider sets. *)
Record ClientOptions : Type := { Cloud : cloud_Configuration }.

(** [[]*string] after unmarshalling: an element is [None] for a nil pointer. *)
Record TxtRecord : Type := { Value : list (option string) }.

Record RecordSetProperties : Type := {
  TTL_ : option Z;
  (** [[]*armdns.TxtRecord]: [None] is a nil entry, the nil slice is [[]] *)
  TxtRecords : list (option TxtRecord)
}.

Record RecordSet : Type := {
  Name : option string;
  Properties : option RecordSetProperties
}.

(** The zero value, what the SDK returns next to an error. *)
Definition zero_RecordSet : RecordSet := {| Name := None; Properties := None |}.

Record Zone : Type := { ZoneName : option string }.

Inductive RecordType : Type := RecordTypeA | RecordTypeCNAME | RecordTypeTXT.

(** ** Configuration (azure.go) *)

Inductive http_Client : Type := DefaultClient | CustomClient (id : nat).

Record Config : Type := {
  ClientID : string;
  ClientSecret : string;
  TenantID : string;
  SubscriptionID : string;
  ResourceGroup : string;
  PrivateZone : bool;
  MetadataEndpoint : string;
  CloudConfig : cloud_Configuration;
  PropagationTimeout : Z;
  PollingInterval : Z;
  TTL : Z;
  HTTPClient : option http_Client
}.

Definition envNamespace : string := "AZURE_".
Definition EnvEnvironment : string := envNamespace +:+ "ENVIRONMENT".
Definition EnvSubscriptionID : string := envNamespace +:+ "SUBSCRIPTION_ID".
Definition EnvResourceGroup : string := envNamespace +:+ "RESOURCE_GROUP".
Definition EnvTenantID : string := envNamespace +:+ "TENANT_ID".
Definition EnvClientID : string := envNamespace +:+ "CLIENT_ID".
Definition EnvClientSecret : string := envNamespace +:+ "CLIENT_SECRET".
Definition EnvZoneName : string := envNamespace +:+ "ZONE_NAME".
Definition EnvPrivateZone : string := envNamespace +:+ "PRIVATE_ZONE".
Definition EnvTTL : string := envNamespace +:+ "TTL".
Definition EnvPropagationTimeout : string := envNamespace +:+ "PROPAGATION_TIMEOUT".
Definition EnvPollingInterval : string := envNamespace +:+ "POLLING_INTERVAL".

(** [time.Duration] counts nanoseconds. *)
Definition time_Second : Z := 1000000000.
Definition time_Minute : Z := 60 * time_Second.

(** ** Collaborators outside the provider *)

(** The [env] reader and the [dns01] helpers. [FindZoneByFqdn] queries the
    DNS; the provider only sees its result. *)
Record Deps : Type := {
  GetOrFile : string → string;
  GetOrDefaultInt : string → Z → Z;
  GetOrDefaultSecond : string → Z → Z;
  GetOrDefaultBool : string → bool → bool;
  GetRecord : string → string → string * string;
  FindZoneByFqdn : string → error + string;
  ExtractSubDomain : string → string → error + string
}.

(** Modelled from the spec: [dns01.UnFqdn] is not among the sources. The
    specification has fully-qualified names end in the separator and zone
    names carry no trailing separator; [UnFqdn] removes one trailing dot
    and leaves any other name as it is. *)
Fixpoint UnFqdn (name : string) : string :=
  match name with
  | EmptyString => EmptyString
  | String c rest =>
      match rest with
      | EmptyString => if Ascii.eqb c "."%char then EmptyString else name
      | _ => String c (UnFqdn rest)
      end
  end.

(** An SDK client: what [armdns.NewZonesClient] and
    [armdns.NewRecordSetsClient] are given. *)
Record Client (Cred : Type) : Type := {
  client_subscriptionID : string;
  client_credential : Cred
}.
Arguments client_subscriptionID {Cred} _.
Arguments client_credential {Cred} _.

(** The record-set and zone operations of the backend over a backend state
    [B]. The constructors of the two clients can fail; the calls return an
    error or a result, and the two writes return the next backend state. *)
Class ArmDNS (Cred B : Type) : Type := {
  NewZonesClient_error : string → Cred → option error;
  NewRecordSetsClient_error : string → Cred → option error;
  Zones_Get : Client Cred → string → string → B → error + Zone;
  RecordSets_Get :
    Client Cred → string → string → string → RecordType → B → error + RecordSet;
  RecordSets_CreateOrUpdate :
    Client Cred → string → string → string → RecordType → RecordSet → B →
    option error * B;
  RecordSets_Delete :
    Client Cred → string → string → string → RecordType → B → option error * B
}.

(** ** Range loops over a Go map and the address of the loop variable *)

(** The scope of the variable a [for ... := range] statement declares: one
    variable for the whole loop (the language before Go 1.22), or a fresh
    variable at every iteration (Go 1.22 and later). The [go] directive that
    selects between them is not part of the sources, so the embedding takes
    it as a parameter. *)
Inductive LoopVarScope : Type := PerLoop | PerIteration.

(** String variables whose address is taken: a pointer is an index. *)
Abbreviation Heap := (list string).
Abbreviation Ptr := nat.

(** [armdns.TxtRecord] as [Present] builds it, before it is marshalled:
    [Value] holds pointers. *)
Record TxtRecordPtr : Type := { ValuePtr : list Ptr }.

(** The iterations of
    [for txt := range uniqRecords { txtRecords = append(txtRecords,
       &armdns.TxtRecord{Value: []*string{&txt}}) }]
    over the keys in the order the runtime yields them; [txt] is the address
    of the current loop variable. *)
Fixpoint range_append (scope : LoopVarScope) (keys : list string)
    (txt : Ptr) (h : Heap) (txtRecords : list TxtRecordPtr)
  : Heap * list TxtRecordPtr :=
  match keys with
  | [] => (h, txtRecords)
  | k :: rest =>
      match scope with
      | PerLoop =>
          (* the one variable is assigned the next key *)
          range_append scope rest txt (<[txt := k]> h)
            (txtRecords ++ [{| ValuePtr := [txt] |}])
      | PerIteration =>
          (* a new variable holds the next key *)
          let txt' := length h in
          range_append scope rest txt' (h ++ [k])
            (txtRecords ++ [{| ValuePtr := [txt'] |}])
      end
  end.

(** The request body: every pointer read when the record set is sent. *)
Definition marshal_TxtRecord (h : Heap) (r : TxtRecordPtr) : option TxtRecord :=
  Some {| Value := map (λ p, h !! p) (ValuePtr r) |}.

(** The loop as a whole, from a heap that holds the loop variable, and the
    marshalled slice. *)
Definition build_txtRecords (scope : LoopVarScope) (keys : list string)
  : list (option TxtRecord) :=
  let '(h, txtRecords) := range_append scope keys 0%nat [""] [] in
  map (marshal_TxtRecord h) txtRecords.

(** ** The provider's view of the world *)

(** What leaves the process: the zone discovery and the four backend calls,
    each with the client (hence the credential) it is made with. *)
Inductive Event (Cred : Type) : Type :=
| EvFindZoneByFqdn (fqdn : string)
| EvZonesGet (dc : Client Cred) (resourceGroup zone : string)
| EvRecordSetsGet (rsc : Client Cred) (resourceGroup zone subDomain : string)
    (ty : RecordType)
| EvRecordSetsCreateOrUpdate (rsc : Client Cred)
    (resourceGroup zone subDomain : string) (ty : RecordType) (rec : RecordSet)
| EvRecordSetsDelete (rsc : Client Cred) (resourceGroup zone subDomain : string)
    (ty : RecordType).
Arguments EvFindZoneByFqdn {Cred} _.
Arguments EvZonesGet {Cred} _ _ _.
Arguments EvRecordSetsGet {Cred} _ _ _ _ _.
Arguments EvRecordSetsCreateOrUpdate {Cred} _ _ _ _ _ _.
Arguments EvRecordSetsDelete {Cred} _ _ _ _ _.

(** The backend state and the calls made so far, oldest first. *)
Record World (Cred B : Type) : Type := {
  backend : B;
  trace : list (Event Cred)
}.
Arguments backend {Cred B} _.
Arguments trace {Cred B} _.

(** How a method ends: it returns its [error] result ([None] is [nil]), or
    the goroutine panics on a nil dereference. *)
Inductive Outcome : Type :=
| Returned (err : option error)
| Panicked.

(** The result of a pure step that can panic. *)
Inductive res (A : Type) : Type :=
| Val (a : A)
| Panic.
Arguments Val {A} _.
Arguments Panic {A}.

(** [dnsProvider] (provider.go) and its exported wrapper (azure.go). *)
Record dnsProvider (Cred : Type) : Type := {
  config : Config;
  authorizer : Cred
}.
Arguments config {Cred} _.
Arguments authorizer {Cred} _.

Record DNSProvider (Cred : Type) : Type := { provider : dnsProvider Cred }.
Arguments provider {Cred} _.

(** [azidentity.EnvironmentCredentialOptions] *)
Record EnvironmentCredentialOptions : Type := { ClientOptions_ : ClientOptions }.

(** State passing over the world. *)
Definition M (W A : Type) : Type := W → A * W.

#[global] Instance M_ret {W} : MRet (M W) := λ A a w, (a, w).
#[global] Instance M_bind {W} : MBind (M W) :=
  λ A C f m w, let '(a, w') := m w in f a w'.

(** ** provider.go: the TXT merge of [Present] *)

(** [len(txtRecord.Value) > 0 && txtRecord.Value[0] != nil], and then
    [*txtRecord.Value[0]]. *)
Definition first_string (txtRecord : TxtRecord) : option string :=
  match Value txtRecord with
  | Some s :: _ => Some s
  | _ => None
  end.

(** The loop over [rset.Properties.TxtRecords] filling the map; reading
    [Value] through a nil entry panics. *)
Fixpoint collect_first_strings (txtRecords : list (option TxtRecord))
    (uniqRecords : gset string) : res (gset string) :=
  match txtRecords with
  | [] => Val uniqRecords
  | None :: _ => Panic
  | Some txtRecord :: rest =>
      collect_first_strings rest
        match first_string txtRecord with
        | Some s => {[ s ]} ∪ uniqRecords
        | None => uniqRecords
        end
  end.

(** [uniqRecords := map[string]struct{}{value: {}}] and the guarded loop. *)
Definition uniqRecords (value : string) (rset : RecordSet) : res (gset string) :=
  match Properties rset with
  | Some props => collect_first_strings (TxtRecords props) {[ value ]}
  | None => Val {[ value ]}
  end.

(** [rec := armdns.RecordSet{Name: &subDomain, Properties: ...}]. [keys] are
    the map's keys in iteration order. [int64(d.config.TTL)] keeps the
    value: Go's [int] is no wider than 64 bits. *)
Definition build_RecordSet (scope : LoopVarScope) (subDomain : string)
    (ttl : Z) (keys : list string) : RecordSet :=
  {| Name := Some subDomain;
     Properties := Some {| TTL_ := to.Int64Ptr ttl;
                           TxtRecords := build_txtRecords scope keys |} |}.

(** ** provider.go and azure.go: the methods *)

Section Provider.
Context {Cred B : Type} `{!ArmDNS Cred B}.
Variable deps : Deps.
(** [azidentity.NewEnvironmentCredential] *)
Variable NewEnvironmentCredential :
  EnvironmentCredentialOptions → error + Cred.

Abbreviation W := (World Cred B).

(** The world after one more call [e] that leaves the backend at [b]. *)
Definition logged (w : W) (e : Event Cred) (b : B) : W :=
  {| backend := b; trace := trace w ++ [e] |}.

Definition call_FindZoneByFqdn (fqdn : string) : M W (error + string) :=
  λ w, (FindZoneByFqdn deps fqdn,
        logged w (EvFindZoneByFqdn fqdn) (backend w)).

Definition call_Zones_Get (dc : Client Cred) (resourceGroup zone : string)
  : M W (error + Zone) :=
  λ w, (Zones_Get dc resourceGroup zone (backend w),
        logged w (EvZonesGet dc resourceGroup zone) (backend w)).

Definition call_RecordSets_Get (rsc : Client Cred)
    (resourceGroup zone subDomain : string) (ty : RecordType)
  : M W (error + RecordSet) :=
  λ w, (RecordSets_Get rsc resourceGroup zone subDomain ty (backend w),
        logged w (EvRecordSetsGet rsc resourceGroup zone subDomain ty)
          (backend w)).

Definition call_RecordSets_CreateOrUpdate (rsc : Client Cred)
    (resourceGroup zone subDomain : string) (ty : RecordType) (rec : RecordSet)
  : M W (option error) :=
  λ w, let '(err, b) :=
         RecordSets_CreateOrUpdate rsc resourceGroup zone subDomain ty rec
           (backend w) in
       (err, logged w
               (EvRecordSetsCreateOrUpdate rsc resourceGroup zone subDomain
                  ty rec) b).

Definition call_RecordSets_Delete (rsc : Client Cred)
    (resourceGroup zone subDomain : string) (ty : RecordType)
  : M W (option error) :=
  λ w, let '(err, b) :=
         RecordSets_Delete rsc resourceGroup zone subDomain ty (backend w) in
       (err, logged w
               (EvRecordSetsDelete rsc resourceGroup zone subDomain ty) b).

Definition new_client (d : dnsProvider Cred) : Client Cred :=
  {| client_subscriptionID := SubscriptionID (config d);
     client_credential := authorizer d |}.

(** [dnsProvider.Timeout] *)
Definition Timeout (d : dnsProvider Cred) : Z * Z :=
  (PropagationTimeout (config d), PollingInterval (config d)).

(** [dnsProvider.getHostedZoneID] *)
Definition getHostedZoneID (d : dnsProvider Cred) (fqdn : string)
  : M W (error + string) :=
  let zone := GetOrFile deps EnvZoneName in
  if negb (String.eqb zone "") then mret (inr zone)
  else
    authZone ← call_FindZoneByFqdn fqdn;
    match authZone with
    | inl err => mret (inl err)
    | inr authZone =>
        match NewZonesClient_error (SubscriptionID (config d)) (authorizer d) with
        | Some err => mret (inl err)
        | None =>
            zone ← call_Zones_Get (new_client d) (ResourceGroup (config d))
                     (UnFqdn authZone);
            match zone with
            | inl err => mret (inl err)
            | inr zone => mret (inr (to.String (ZoneName zone)))
            end
        end
    end.

(** [Present] from the map construction to its end (provider.go, from
    "Construct unique TXT records using map" on): merge, rebuild, write.
    [mapiter] is the order in which the runtime ranges over the map. *)
Definition Present_upsert (scope : LoopVarScope)
    (mapiter : gset string → list string) (d : dnsProvider Cred)
    (rsc : Client Cred) (zone subDomain value : string) (rset : RecordSet)
  : M W Outcome :=
  match uniqRecords value rset with
  | Panic => mret Panicked
  | Val uniq =>
      let rec :=
        build_RecordSet scope subDomain (TTL (config d)) (mapiter uniq) in
      err ← call_RecordSets_CreateOrUpdate rsc (ResourceGroup (config d))
              zone subDomain RecordTypeTXT rec;
      match err with
      | Some err => mret (Returned (Some (azure_Errorf err)))
      | None => mret (Returned None)
      end
  end.

(** [dnsProvider.Present] *)
Definition Present (scope : LoopVarScope)
    (mapiter : gset string → list string) (d : dnsProvider Cred)
    (domain token keyAuth : string) : M W Outcome :=
  let '(fqdn, value) := GetRecord deps domain keyAuth in
  zone ← getHostedZoneID d fqdn;
  match zone with
  | inl err => mret (Returned (Some (azure_Errorf err)))
  | inr zone =>
      match NewRecordSetsClient_error (SubscriptionID (config d)) (authorizer d) with
      | Some err => mret (Returned (Some (azure_Errorf err)))
      | None =>
          let rsc := new_client d in
          match ExtractSubDomain deps fqdn zone with
          | inl err => mret (Returned (Some (azure_Errorf err)))
          | inr subDomain =>
              rset ← call_RecordSets_Get rsc (ResourceGroup (config d)) zone
                       subDomain RecordTypeTXT;
              match rset with
              | inl err =>
                  if read_error_is_fatal err
                  then mret (Returned (Some (azure_Errorf err)))
                  else Present_upsert scope mapiter d rsc zone subDomain value
                         zero_RecordSet
              | inr rset =>
                  Present_upsert scope mapiter d rsc zone subDomain value rset
              end
          end
      end
  end.

(** [dnsProvider.CleanUp] *)
Definition CleanUp (d : dnsProvider Cred) (domain token keyAuth : string)
  : M W Outcome :=
  let '(fqdn, _) := GetRecord deps domain keyAuth in
  zone ← getHostedZoneID d fqdn;
  match zone with
  | inl err => mret (Returned (Some (azure_Errorf err)))
  | inr zone =>
      match ExtractSubDomain deps fqdn zone with
      | inl err => mret (Returned (Some (azure_Errorf err)))
      | inr subDomain =>
          match NewRecordSetsClient_error (SubscriptionID (config d)) (authorizer d) with
          | Some err => mret (Returned (Some (azure_Errorf err)))
          | None =>
              err ← call_RecordSets_Delete (new_client d)
                      (ResourceGroup (config d)) zone subDomain RecordTypeTXT;
              match err with
              | Some err => mret (Returned (Some (azure_Errorf err)))
              | None => mret (Returned None)
              end
          end
      end
  end.

(** [NewDefaultConfig] *)
Definition NewDefaultConfig : Config :=
  {| ClientID := ""; ClientSecret := ""; TenantID := "";
     SubscriptionID := ""; ResourceGroup := ""; PrivateZone := false;
     MetadataEndpoint := "";
     CloudConfig := AzurePublic;
     PropagationTimeout :=
       GetOrDefaultSecond deps EnvPropagationTimeout (2 * time_Minute);
     PollingInterval :=
       GetOrDefaultSecond deps EnvPollingInterval (2 * time_Second);
     TTL := GetOrDefaultInt deps EnvTTL 60;
     HTTPClient := None |}.

Definition set_HTTPClient (c : Config) (h : option http_Client) : Config :=
  {| ClientID := ClientID c; ClientSecret := ClientSecret c;
     TenantID := TenantID c; SubscriptionID := SubscriptionID c;
     ResourceGroup := ResourceGroup c; PrivateZone := PrivateZone c;
     MetadataEndpoint := MetadataEndpoint c; CloudConfig := CloudConfig c;
     PropagationTimeout := PropagationTimeout c;
     PollingInterval := PollingInterval c; TTL := TTL c;
     HTTPClient := h |}.

(** [NewDNSProviderConfig]; [None] is the nil [*Config]. The provider keeps
    the configuration it was given, with the HTTP client filled in. *)
Definition NewDNSProviderConfig (config : option Config)
  : error + DNSProvider Cred :=
  match config with
  | None =>
      inl (ErrorString "azure: the configuration of the DNS provider is nil")
  | Some config =>
      let config :=
        match HTTPClient config with
        | None => set_HTTPClient config (Some DefaultClient)
        | Some _ => config
        end in
      if String.eqb (SubscriptionID config) ""
      then inl (ErrorString "azure: SubscriptionID is missing")
      else if String.eqb (ResourceGroup config) ""
      then inl (ErrorString "azure: ResourceGroup is missing")
      else
        let clientOpts := {| Cloud := AzureChina |} in
        match NewEnvironmentCredential {| ClientOptions_ := clientOpts |} with
        | inl err =>
            inl (WrapError "azidentity.NewEnvironmentCredential failed: " err)
        | inr cred =>
            inr {| provider := {| config := config; authorizer := cred |} |}
        end
  end.

(** [NewDNSProvider] *)
Definition NewDNSProvider : error + DNSProvider Cred :=
  let config := NewDefaultConfig in
  let environmentName := GetOrFile deps EnvEnvironment in
  let environment : error + cloud_Configuration :=
    if negb (String.eqb environmentName "") then
      if String.eqb environmentName "china" then inr AzureChina
      else if String.eqb environmentName "german"
      then inr (CustomCloud "https://login.microsoftonline.de/")
      else if String.eqb environmentName "public" then inr AzurePublic
      else if String.eqb environmentName "usgovernment" then inr AzureGovernment
      else inl (ErrorString ("azure: unknown environment " +:+ environmentName))
    else inr (CloudConfig config) in
  match environment with
  | inl err => inl err
  | inr environment =>
      NewDNSProviderConfig (Some
        {| ClientID := GetOrFile deps EnvClientID;
           ClientSecret := GetOrFile deps EnvClientSecret;
           TenantID := GetOrFile deps EnvTenantID;
           SubscriptionID := GetOrFile deps EnvSubscriptionID;
           ResourceGroup := GetOrFile deps EnvResourceGroup;
           PrivateZone := GetOrDefaultBool deps EnvPrivateZone false;
           MetadataEndpoint := MetadataEndpoint config;
           CloudConfig := environment;
           PropagationTimeout := PropagationTimeout config;
           PollingInterval := PollingInterval config;
           TTL := TTL config;
           HTTPClient := HTTPClient config |})
  end.

(** The exported methods delegate to the wrapped provider. *)
Definition DNSProvider_Timeout (d : DNSProvider Cred) : Z * Z :=
  Timeout (provider d).

Definition DNSProvider_Present (scope : LoopVarScope)
    (mapiter : gset string → list string) (d : DNSProvider Cred)
    (domain token keyAuth : string) : M W Outcome :=
  Present scope mapiter (provider d) domain token keyAuth.

Definition DNSProvider_CleanUp (d : DNSProvider Cred)
    (domain token keyAuth : string) : M W Outcome :=
  CleanUp (provider d) domain token keyAuth.
End Provider.

(** ** A reference backend: an in-memory store of zones and TXT record sets *)

(** Zones by (resource group, zone name), TXT record sets by (resource
    group, zone name, relative record name). It realises the backend
    contract: a read of an absent zone or record set answers 404, an upsert
    replaces the record set, a delete removes it. *)
Record MemStore : Type := {
  mem_zones : gmap (string * string) Zone;
  mem_records : gmap (string * string * string) RecordSet
}.

Definition not_found : error := ResponseError http_StatusNotFound "NotFound".

Definition mem_get_zone (resourceGroup zone : string) (b : MemStore)
  : error + Zone :=
  match mem_zones b !! (resourceGroup, zone) with
  | Some z => inr z
  | None => inl not_found
  end.

Definition mem_get (resourceGroup zone subDomain : string) (b : MemStore)
  : error + RecordSet :=
  match mem_records b !! (resourceGroup, zone, subDomain) with
  | Some rset => inr rset
  | None => inl not_found
  end.

Definition mem_put (resourceGroup zone subDomain : string) (rec : RecordSet)
    (b : MemStore) : MemStore :=
  {| mem_zones := mem_zones b;
     mem_records := <[(resourceGroup, zone, subDomain) := rec]> (mem_records b) |}.

Definition mem_delete (resourceGroup zone subDomain : string) (b : MemStore)
  : MemStore :=
  {| mem_zones := mem_zones b;
     mem_records := delete (resourceGroup, zone, subDomain) (mem_records b) |}.

#[global] Instance MemStore_ArmDNS {Cred : Type} : ArmDNS Cred MemStore := {|
  NewZonesClient_error _ _ := None;
  NewRecordSetsClient_error _ _ := None;
  Zones_Get _ resourceGroup zone b := mem_get_zone resourceGroup zone b;
  RecordSets_Get _ resourceGroup zone subDomain _ b :=
    mem_get resourceGroup zone subDomain b;
  RecordSets_CreateOrUpdate _ resourceGroup zone subDomain _ rec b :=
    (None, mem_put resourceGroup zone subDomain rec b);
  RecordSets_Delete _ resourceGroup zone subDomain _ b :=
    (None, mem_delete resourceGroup zone subDomain b)
|}.

(** The same store behind a backend that answers 404 to the delete of a
    record set that is not there. *)
Record StrictStore : Type := { strict_store : MemStore }.

#[global] Instance StrictStore_ArmDNS {Cred : Type} : ArmDNS Cred StrictStore := {|
  NewZonesClient_error _ _ := None;
  NewRecordSetsClient_error _ _ := None;
  Zones_Get _ resourceGroup zone b :=
    mem_get_zone resourceGroup zone (strict_store b);
  RecordSets_Get _ resourceGroup zone subDomain _ b :=
    mem_get resourceGroup zone subDomain (strict_store b);
  RecordSets_CreateOrUpdate _ resourceGroup zone subDomain _ rec b :=
    (None, {| strict_store :=
                mem_put resourceGroup zone subDomain rec (strict_store b) |});
  RecordSets_Delete _ resourceGroup zone subDomain _ b :=
    match mem_records (strict_store b) !! (resourceGroup, zone, subDomain) with
    | Some _ =>
        (None, {| strict_store :=
                    mem_delete resourceGroup zone subDomain (strict_store b) |})
    | None => (Some not_found, b)
    end
|}.

(** The TXT strings of a record set, as the set a resolver would see. *)
Definition txt_strings (txtRecords : list (option TxtRecord)) : list string :=
  flat_map (λ r, match r with
                 | Some r => omap id (Value r)
                 | None => []
                 end) txtRecords.

Definition RecordSet_values (rset : RecordSet) : gset string :=
  match Properties rset with
  | Some props => list_to_set (txt_strings (TxtRecords props))
  | None => ∅
  end.

(** The value set stored under a record name; empty when there is none. *)
Definition stored_values (resourceGroup zone subDomain : string) (b : MemStore)
  : gset string :=
  match mem_records b !! (resourceGroup, zone, subDomain) with
  | Some rset => RecordSet_values rset
  | None => ∅
  end.

(** ** Notions the properties are stated with *)

(** A record of one string, as [Present] rebuilds it. *)
Definition single_TxtRecord (s : string) : option TxtRecord :=
  Some {| Value := [Some s] |}.

(** The strings the merge takes from the entries: the first string of every
    entry that has one. *)
Fixpoint first_strings (txtRecords : list (option TxtRecord)) : list string :=
  match txtRecords with
  | [] => []
  | Some r :: rest =>
      match first_string r with
      | Some s => s :: first_strings rest
      | None => first_strings rest
      end
  | None :: rest => first_strings rest
  end.

Definition has_nil_entry (txtRecords : list (option TxtRecord)) : bool :=
  existsb (λ r, match r with None => true | Some _ => false end) txtRecords.

(** An entry is malformed when its string list is empty or starts with a
    nil string. *)
Definition malformed (r : TxtRecord) : bool :=
  match Value r with
  | [] => true
  | None :: _ => true
  | Some _ :: _ => false
  end.

Definition well_formed_entry (r : option TxtRecord) : bool :=
  match r with
  | Some r => negb (malformed r)
  | None => true
  end.

Definition map_TxtRecords (f : list (option TxtRecord) → list (option TxtRecord))
    (rset : RecordSet) : RecordSet :=
  {| Name := Name rset;
     Properties :=
       match Properties rset with
       | Some props =>
           Some {| TTL_ := TTL_ props; TxtRecords := f (TxtRecords props) |}
       | None => None
       end |}.

(** The record set without its malformed entries (nil entries stay). *)
Definition drop_malformed (rset : RecordSet) : RecordSet :=
  map_TxtRecords (List.filter well_formed_entry) rset.



(** The entries of a record set; none when it has no properties. *)
Definition entries (rset : RecordSet) : list (option TxtRecord) :=
  match Properties rset with
  | Some props => TxtRecords props
  | None => []
  end.

(** [strings.HasPrefix] *)
Fixpoint HasPrefix (s prefix : string) {struct prefix} : bool :=
  match prefix with
  | EmptyString => true
  | String a prefix' =>
      match s with
      | EmptyString => false
      | String b s' => Ascii.eqb a b && HasPrefix s' prefix'
      end
  end.

Definition azure_prefixed (e : error) : bool := HasPrefix (Error e) "azure: ".

(** A configuration with another cloud. *)
Definition with_CloudConfig (c : Config) (cloud : cloud_Configuration) : Config :=
  {| ClientID := ClientID c; ClientSecret := ClientSecret c;
     TenantID := TenantID c; SubscriptionID := SubscriptionID c;
     ResourceGroup := ResourceGroup c; PrivateZone := PrivateZone c;
     MetadataEndpoint := MetadataEndpoint c; CloudConfig := cloud;
     PropagationTimeout := PropagationTimeout c;
     PollingInterval := PollingInterval c; TTL := TTL c;
     HTTPClient := HTTPClient c |}.

(** The client a call is made with; the zone discovery has none. *)
Definition event_client {Cred} (e : Event Cred) : option (Client Cred) :=
  match e with
  | EvFindZoneByFqdn _ => None
  | EvZonesGet c _ _ => Some c
  | EvRecordSetsGet c _ _ _ _ => Some c
  | EvRecordSetsCreateOrUpdate c _ _ _ _ _ => Some c
  | EvRecordSetsDelete c _ _ _ _ => Some c
  end.

Definition made_with {Cred} (cred : Cred) (e : Event Cred) : Prop :=
  ∀ c, event_client e = Some c → client_credential c = cred.

(** The options [NewDNSProviderConfig] makes the credential from. *)
Definition china : EnvironmentCredentialOptions :=
  {| ClientOptions_ := {| Cloud := AzureChina |} |}.

(** The order in which a map is ranged over is not specified; all that is
    known of it is that every key comes exactly once. *)
Definition ranges_over (mapiter : gset string → list string) : Prop :=
  ∀ X, mapiter X ≡ₚ elements X.

(** The record set [Present] merges with: the stored one, or the zero value
    when the read is answered 404. *)
Definition current_rset (resourceGroup zone subDomain : string) (b : MemStore)
  : RecordSet :=
  match mem_get resourceGroup zone subDomain b with
  | inr rset => rset
  | inl _ => zero_RecordSet
  end.

Section StoreView.
Context {Cred : Type}.
Variable deps : Deps.

(** The zone [getHostedZoneID] resolves over a store. *)
Definition resolve_zone (d : dnsProvider Cred) (fqdn : string) (b : MemStore)
  : error + string :=
  (getHostedZoneID deps d fqdn {| backend := b; trace := [] |}).1.

(** The outcome of [Present] and the store it leaves, as a function of
    the store it finds. *)
Definition Present_on_store (scope : LoopVarScope)
    (mapiter : gset string → list string) (d : dnsProvider Cred)
    (fqdn value : string) (b : MemStore) : Outcome * MemStore :=
  match resolve_zone d fqdn b with
  | inl err => (Returned (Some (azure_Errorf err)), b)
  | inr zone =>
      match ExtractSubDomain deps fqdn zone with
      | inl err => (Returned (Some (azure_Errorf err)), b)
      | inr subDomain =>
          match uniqRecords value
                  (current_rset (ResourceGroup (config d)) zone subDomain b) with
          | Panic => (Panicked, b)
          | Val uniq =>
              (Returned None,
               mem_put (ResourceGroup (config d)) zone subDomain
                 (build_RecordSet scope subDomain (TTL (config d))
                    (mapiter uniq)) b)
          end
      end
  end.
End StoreView.

(** The calls of the zone resolution: the discovery and the backend's
    get-zone. *)
Definition is_zone_call {Cred} (e : Event Cred) : bool :=
  match e with
  | EvFindZoneByFqdn _ | EvZonesGet _ _ _ => true
  | _ => false
  end.

(** The resource group a backend call names, and the record type of a
    record-set call. *)
Definition event_resourceGroup {Cred} (e : Event Cred) : option string :=
  match e with
  | EvFindZoneByFqdn _ => None
  | EvZonesGet _ rg _ => Some rg
  | EvRecordSetsGet _ rg _ _ _ => Some rg
  | EvRecordSetsCreateOrUpdate _ rg _ _ _ _ => Some rg
  | EvRecordSetsDelete _ rg _ _ _ => Some rg
  end.

Definition event_RecordType {Cred} (e : Event Cred) : option RecordType :=
  match e with
  | EvFindZoneByFqdn _ | EvZonesGet _ _ _ => None
  | EvRecordSetsGet _ _ _ _ ty => Some ty
  | EvRecordSetsCreateOrUpdate _ _ _ _ ty _ => Some ty
  | EvRecordSetsDelete _ _ _ _ ty => Some ty
  end.

(** The upserts and the deletes among the calls. *)
Definition is_upsert {Cred} (e : Event Cred) : bool :=
  match e with
  | EvRecordSetsCreateOrUpdate _ _ _ _ _ _ => true
  | _ => false
  end.

Definition is_delete {Cred} (e : Event Cred) : bool :=
  match e with
  | EvRecordSetsDelete _ _ _ _ _ => true
  | _ => false
  end.

(** A call made for the provider [d]: with its subscription and credential,
    in its resource group, and for TXT records when it is a record-set
    call. *)
Definition scoped_to {Cred} (d : dnsProvider Cred) (e : Event Cred) : Prop :=
  (∀ c, event_client e = Some c →
        c = {| client_subscriptionID := SubscriptionID (config d);
               client_credential := authorizer d |}) ∧
  (∀ rg, event_resourceGroup e = Some rg → rg = ResourceGroup (config d)) ∧
  (∀ ty, event_RecordType e = Some ty → ty = RecordTypeTXT).

(** The configuration a provider keeps: the one given, with the default
    HTTP client when none was set. *)
Definition with_default_HTTPClient (c : Config) : Config :=
  {| ClientID := ClientID c; ClientSecret := ClientSecret c;
     TenantID := TenantID c; SubscriptionID := SubscriptionID c;
     ResourceGroup := ResourceGroup c; PrivateZone := PrivateZone c;
     MetadataEndpoint := MetadataEndpoint c; CloudConfig := CloudConfig c;
     PropagationTimeout := PropagationTimeout c;
     PollingInterval := PollingInterval c; TTL := TTL c;
     HTTPClient := match HTTPClient c with
                   | Some h => Some h
                   | None => Some DefaultClient
                   end |}.

(** The environment names [NewDNSProvider] knows. *)
Definition known_environments : list string :=
  ["china"; "german"; "public"; "usgovernment"].

Section StoreViewCleanUp.
Context {Cred : Type}.
Variable deps : Deps.

(** The outcome of [CleanUp] and the store it leaves, as a function of the
    store it finds. *)
Definition CleanUp_on_store (d : dnsProvider Cred) (fqdn : string)
    (b : MemStore) : Outcome * MemStore :=
  match resolve_zone deps d fqdn b with
  | inl err => (Returned (Some (azure_Errorf err)), b)
  | inr zone =>
      match ExtractSubDomain deps fqdn zone with
      | inl err => (Returned (Some (azure_Errorf err)), b)
      | inr subDomain =>
          (Returned None,
           mem_delete (ResourceGroup (config d)) zone subDomain b)
      end
  end.
End StoreViewCleanUp.

(** ** A concrete setting for the examples *)

Module Example.
(** No zone override, the zone of every name is [example.com.], the
    challenge record of a domain is [_acme-challenge.<domain>.] and the
    relative name is [_acme-challenge]. The TXT value stands for the
    digest of the key authorization. *)
Definition deps (ZONE_NAME : string) : Deps :=
  {| GetOrFile := λ name, if String.eqb name EnvZoneName then ZONE_NAME else "";
     GetOrDefaultInt := λ _ def, def;
     GetOrDefaultSecond := λ _ def, def;
     GetOrDefaultBool := λ _ def, def;
     GetRecord := λ domain keyAuth,
       ("_acme-challenge." +:+ domain +:+ ".", keyAuth);
     FindZoneByFqdn := λ _, inr "example.com.";
     ExtractSubDomain := λ _ _, inr "_acme-challenge" |}.

Definition cfg : Config :=
  {| ClientID := ""; ClientSecret := ""; TenantID := "";
     SubscriptionID := "sub"; ResourceGroup := "rg"; PrivateZone := false;
     MetadataEndpoint := ""; CloudConfig := AzurePublic;
     PropagationTimeout := 2 * time_Minute;
     PollingInterval := 2 * time_Second; TTL := 60;
     HTTPClient := Some DefaultClient |}.

(** A credential is known by the options it was made from. *)
Definition d : dnsProvider EnvironmentCredentialOptions :=
  {| config := cfg;
     authorizer := {| ClientOptions_ := {| Cloud := AzureChina |} |} |}.

Definition zones : gmap (string * string) Zone :=
  {[ ("rg", "example.com") := {| ZoneName := Some "example.com" |} ]}.

Definition rset_of (values : list (option TxtRecord)) : RecordSet :=
  {| Name := Some "_acme-challenge";
     Properties := Some {| TTL_ := Some 60; TxtRecords := values |} |}.

Definition store (values : option (list (option TxtRecord))) : MemStore :=
  {| mem_zones := zones;
     mem_records :=
       match values with
       | Some vs => {[ ("rg", "example.com", "_acme-challenge") := rset_of vs ]}
       | None => ∅
       end |}.

Definition world {B : Type} (b : B) : World EnvironmentCredentialOptions B :=
  {| backend := b; trace := [] |}.

(** Two iteration orders of a map, one the reverse of the other. *)
Definition forward (X : gset string) : list string := elements X.
Definition backward (X : gset string) : list string := reverse (elements X).
End Example.

Module Scenario.
Import Example.

Definition name_values (b : MemStore) : list string :=
  elements (stored_values "rg" "example.com" "_acme-challenge" b).

Definition name_entries (b : MemStore) : option (list (option TxtRecord)) :=
  entries <$> mem_records b !! ("rg", "example.com", "_acme-challenge").

Definition present (scope : LoopVarScope)
    (mapiter : gset string → list string) (keyAuth : string)
    (w : World EnvironmentCredentialOptions MemStore)
  : Outcome * World EnvironmentCredentialOptions MemStore :=
  Present (deps "") scope mapiter d "example.com" "tok" keyAuth w.

(** The record name holds ["abc123"]. *)
Definition w_abc : World EnvironmentCredentialOptions MemStore :=
  world (store (Some [single_TxtRecord "abc123"])).

(** The record name has no record set. *)
Definition w_none : World EnvironmentCredentialOptions MemStore :=
  world (store None).
End Scenario.

(** An environment given by its variables; the other collaborators are
    those of [Example.deps]. *)
Module Env.
Fixpoint getenv (vars : list (string * string)) (name : string) : string :=
  match vars with
  | [] => ""
  | (n, v) :: rest => if String.eqb n name then v else getenv rest name
  end.

Definition deps (vars : list (string * string)) : Deps :=
  {| GetOrFile := getenv vars;
     GetOrDefaultInt := λ _ def, def;
     GetOrDefaultSecond := λ _ def, def;
     GetOrDefaultBool := λ _ def, def;
     GetRecord := GetRecord (Example.deps "");
     FindZoneByFqdn := FindZoneByFqdn (Example.deps "");
     ExtractSubDomain := ExtractSubDomain (Example.deps "") |}.
End Env.

(** * Properties *)

(** ** The rebuilt TXT records *)

Lemma range_append_PerIteration keys : ∀ txt h acc,
  range_append PerIteration keys txt h acc =
  (h ++ keys,
   acc ++ map (λ i, {| ValuePtr := [(length h + i)%nat] |})
              (seq 0 (length keys))).
Proof.
  induction keys as [|k keys IH]; intros txt h acc; simpl.
  - by rewrite !app_nil_r.
  - rewrite IH, <- !app_assoc, length_app. simpl. do 2 f_equal.
    f_equal; [do 2 f_equal; lia|].
    rewrite <- seq_shift, map_map. apply map_ext. intros i.
    do 2 f_equal. lia.
Qed.

Lemma range_append_PerLoop keys : ∀ txt h acc,
  range_append PerLoop keys txt h acc =
  (foldl (λ h k, <[txt := k]> h) h keys,
   acc ++ replicate (length keys) {| ValuePtr := [txt] |}).
Proof.
  induction keys as [|k keys IH]; intros txt h acc; simpl.
  - by rewrite app_nil_r.
  - by rewrite IH, <- app_assoc.
Qed.

(** With a variable per iteration every key gets a record of its own, in
    iteration order. *)
Lemma build_txtRecords_PerIteration keys :
  build_txtRecords PerIteration keys = map single_TxtRecord keys.
Proof.
  unfold build_txtRecords. rewrite range_append_PerIteration. simpl.
  rewrite map_map. unfold marshal_TxtRecord, single_TxtRecord. simpl.
  apply list_eq. intros i.
  rewrite !list_lookup_fmap.
  destruct (decide (i < length keys)%nat) as [Hlt|Hge].
  - rewrite lookup_seq_lt by done. simpl.
    destruct (lookup_lt_is_Some_2 keys i Hlt) as [k Hk]. by rewrite Hk.
  - rewrite lookup_seq_ge by lia. by rewrite lookup_ge_None_2 by lia.
Qed.

Lemma last_cons_default {A} (l : list A) : ∀ a d,
  List.last (a :: l) d = List.last l a.
Proof.
  induction l as [|b l IH]; intros a d; [done|].
  change (List.last (a :: b :: l) d) with (List.last (b :: l) d).
  by rewrite !IH.
Qed.

Lemma foldl_assign_last (keys : list string) : ∀ (h : Heap) k0,
  (0 < length h)%nat →
  foldl (λ h k, <[0%nat := k]> h) h (k0 :: keys) !! 0%nat
  = Some (List.last keys k0).
Proof.
  induction keys as [|k keys IH]; intros h k0 Hh.
  - simpl. by apply list_lookup_insert_eq.
  - change (foldl _ h (k0 :: k :: keys))
      with (foldl (λ h k, <[0%nat := k]> h) (<[0%nat := k0]> h) (k :: keys)).
    rewrite IH by (by rewrite length_insert).
    by rewrite last_cons_default.
Qed.

(** With one variable for the loop every record points to it: as many
    records as keys, all holding the key ranged over last. *)
Lemma build_txtRecords_PerLoop k0 keys :
  build_txtRecords PerLoop (k0 :: keys) =
  replicate (S (length keys)) (single_TxtRecord (List.last keys k0)).
Proof.
  unfold build_txtRecords. rewrite range_append_PerLoop.
  cbv beta iota zeta. rewrite app_nil_l.
  change (length (k0 :: keys)) with (S (length keys)).
  rewrite fmap_replicate. f_equal.
  unfold marshal_TxtRecord, single_TxtRecord. cbn [ValuePtr map].
  by rewrite (foldl_assign_last keys [""] k0) by (simpl; lia).
Qed.

Lemma build_txtRecords_nil scope : build_txtRecords scope [] = [].
Proof. by destruct scope. Qed.

(** Whatever the scope of the loop variable, a rebuilt record holds exactly
    one string, and that string is one of the keys. *)
Lemma build_txtRecords_entries scope keys r :
  r ∈ build_txtRecords scope keys →
  ∃ k, k ∈ keys ∧ r = single_TxtRecord k.
Proof.
  destruct scope.
  - destruct keys as [|k0 keys]; [rewrite build_txtRecords_nil; set_solver|].
    rewrite build_txtRecords_PerLoop. intros [-> _]%elem_of_replicate.
    exists (List.last keys k0). split; [|done].
    rewrite <- (last_cons_default keys k0 k0).
    destruct (exists_last (l := k0 :: keys)) as (l' & a & Heq); [done|].
    rewrite Heq, last_last. set_solver.
  - rewrite build_txtRecords_PerIteration. intros (k & -> & Hk)%list_elem_of_fmap.
    eauto.
Qed.

(** ** The merge *)

Lemma collect_first_strings_spec txtRecords : ∀ X,
  collect_first_strings txtRecords X =
  if has_nil_entry txtRecords then Panic
  else Val (list_to_set (first_strings txtRecords) ∪ X).
Proof.
  induction txtRecords as [|[r|] rest IH]; intros X; simpl.
  - f_equal. set_solver.
  - rewrite IH. destruct (has_nil_entry rest); [done|].
    destruct (first_string r); simpl; f_equal; set_solver.
  - done.
Qed.

(** The map [Present] ranges over: the new value and the first strings, or
    a panic when an entry of the slice is nil. *)
Lemma uniqRecords_spec value rset :
  uniqRecords value rset =
  match Properties rset with
  | None => Val {[ value ]}
  | Some props =>
      if has_nil_entry (TxtRecords props) then Panic
      else Val ({[ value ]} ∪ list_to_set (first_strings (TxtRecords props)))
  end.
Proof.
  unfold uniqRecords. destruct (Properties rset) as [props|]; [|done].
  rewrite collect_first_strings_spec.
  destruct (has_nil_entry _); [done|]. f_equal. set_solver.
Qed.

Lemma malformed_first_string r : malformed r = true ↔ first_string r = None.
Proof.
  unfold malformed, first_string. destruct (Value r) as [|[s|] ?]; naive_solver.
Qed.

Lemma has_nil_entry_filter recs :
  has_nil_entry (List.filter well_formed_entry recs) = has_nil_entry recs.
Proof.
  induction recs as [|[r|] rest IH]; simpl; [done| |done].
  destruct (negb (malformed r)); simpl; done.
Qed.

Lemma first_strings_filter recs :
  first_strings (List.filter well_formed_entry recs) = first_strings recs.
Proof.
  induction recs as [|[r|] rest IH]; simpl; [done| |done].
  destruct (malformed r) eqn:Hm; simpl.
  - apply malformed_first_string in Hm. by rewrite Hm.
  - by rewrite IH.
Qed.



Lemma uniqRecords_drop_malformed value rset :
  uniqRecords value (drop_malformed rset) = uniqRecords value rset.
Proof.
  rewrite !uniqRecords_spec. destruct rset as [n [props|]]; simpl; [|done].
  by rewrite has_nil_entry_filter, first_strings_filter.
Qed.


(** ** Zone resolution *)

Lemma UnFqdn_trailing_dot name : UnFqdn (name +:+ ".") = name.
Proof.
  induction name as [|c name IH]; [done|].
  change (String c name +:+ ".") with (String c (name +:+ ".")).
  cbn [UnFqdn]. rewrite IH.
  by destruct name.
Qed.

Lemma UnFqdn_no_dot_example : UnFqdn "example.com" = "example.com".
Proof. reflexivity. Qed.

Section ZoneResolution.
Context {Cred B : Type} `{!ArmDNS Cred B}.
Variable deps : Deps.

(** The fast path: a non-empty override is returned at once. *)
Lemma getHostedZoneID_fast_path (d : dnsProvider Cred) (fqdn : string)
    (w : World Cred B) :
  GetOrFile deps EnvZoneName ≠ "" →
  getHostedZoneID deps d fqdn w = (inr (GetOrFile deps EnvZoneName), w).
Proof.
  intros Hset. unfold getHostedZoneID.
  destruct (String.eqb_spec (GetOrFile deps EnvZoneName) ""); done.
Qed.

(** C5. When the zone-name override is set, [getHostedZoneID] returns it
    and leaves the world as it found it, whatever the FQDN: the trace gains
    no call, so neither the zone discovery nor the backend's get-zone is
    performed, and the backend is not touched. *)
Theorem getHostedZoneID_override (d : dnsProvider Cred) (fqdn : string)
    (w : World Cred B) :
  GetOrFile deps EnvZoneName ≠ "" →
  (getHostedZoneID deps d fqdn w).1 = inr (GetOrFile deps EnvZoneName) ∧
  trace (getHostedZoneID deps d fqdn w).2 = trace w ∧
  backend (getHostedZoneID deps d fqdn w).2 = backend w.
Proof.
  intros Hset. by rewrite getHostedZoneID_fast_path.
Qed.

(** The discovery path, step by step: the discovered name goes to the
    backend through [UnFqdn], and the answer's name is returned. *)
Lemma getHostedZoneID_discovery (d : dnsProvider Cred) (fqdn authZone : string)
    (w : World Cred B) :
  GetOrFile deps EnvZoneName = "" →
  FindZoneByFqdn deps fqdn = inr authZone →
  NewZonesClient_error (SubscriptionID (config d)) (authorizer d) = None →
  getHostedZoneID deps d fqdn w =
  (match Zones_Get (new_client d) (ResourceGroup (config d))
           (UnFqdn authZone) (backend w) with
   | inl err => inl err
   | inr zone => inr (to.String (ZoneName zone))
   end,
   {| backend := backend w;
      trace := trace w ++
        [EvFindZoneByFqdn fqdn;
         EvZonesGet (new_client d) (ResourceGroup (config d))
           (UnFqdn authZone)] |}).
Proof.
  intros Hnone Hfind Hclient. unfold getHostedZoneID.
  rewrite Hnone. cbn [String.eqb negb].
  unfold mbind, M_bind, call_FindZoneByFqdn. rewrite Hfind, Hclient.
  unfold call_Zones_Get, logged. cbn [backend trace].
  rewrite <- app_assoc.
  by destruct (Zones_Get _ _ _ _).
Qed.

(** C8. An override that ends in a dot is returned with its dot, while on
    the discovery path a discovered name [name.] is looked up in the
    backend as [name]: the trailing dot is stripped first. *)
Theorem getHostedZoneID_trailing_dot (d : dnsProvider Cred)
    (fqdn name : string) (w : World Cred B) :
  (GetOrFile deps EnvZoneName = name +:+ "." →
   getHostedZoneID deps d fqdn w = (inr (name +:+ "."), w)) ∧
  (GetOrFile deps EnvZoneName = "" →
   FindZoneByFqdn deps fqdn = inr (name +:+ ".") →
   NewZonesClient_error (SubscriptionID (config d)) (authorizer d) = None →
   trace (getHostedZoneID deps d fqdn w).2 =
   trace w ++ [EvFindZoneByFqdn fqdn;
               EvZonesGet (new_client d) (ResourceGroup (config d)) name]).
Proof.
  split.
  - intros Hset. rewrite getHostedZoneID_fast_path; rewrite Hset; [done|].
    by destruct name.
  - intros Hnone Hfind Hclient.
    rewrite (getHostedZoneID_discovery d fqdn _ w Hnone Hfind Hclient).
    cbn [snd trace]. by rewrite UnFqdn_trailing_dot.
Qed.
End ZoneResolution.

(** The override ["custom.zone."] is used as it is, dot included, and
    nothing is asked of the DNS or of the backend. *)
Lemma getHostedZoneID_override_witness :
  (getHostedZoneID (Example.deps "custom.zone.") Example.d
     "_acme-challenge.example.com." (Example.world (Example.store None))).1
  = inr "custom.zone." ∧
  trace (getHostedZoneID (Example.deps "custom.zone.") Example.d
           "_acme-challenge.example.com."
           (Example.world (Example.store None))).2
  = [] ∧
  backend (getHostedZoneID (Example.deps "custom.zone.") Example.d
             "_acme-challenge.example.com."
             (Example.world (Example.store None))).2
  = Example.store None.
Proof.
  apply (getHostedZoneID_override (Example.deps "custom.zone.")). done.
Defined.

Lemma getHostedZoneID_trailing_dot_witness :
  getHostedZoneID (Example.deps "custom.zone.") Example.d
    "_acme-challenge.example.com." (Example.world (Example.store None))
  = (inr "custom.zone.", Example.world (Example.store None)) ∧
  trace (getHostedZoneID (Example.deps "") Example.d
           "_acme-challenge.example.com."
           (Example.world (Example.store None))).2
  = [EvFindZoneByFqdn "_acme-challenge.example.com.";
     EvZonesGet (new_client Example.d) "rg" "example.com"].
Proof.
  split.
  - apply (proj1 (getHostedZoneID_trailing_dot (Example.deps "custom.zone.")
                    Example.d "_acme-challenge.example.com." "custom.zone"
                    (Example.world (Example.store None)))).
    reflexivity.
  - apply (proj2 (getHostedZoneID_trailing_dot (Example.deps "")
                    Example.d "_acme-challenge.example.com." "example.com"
                    (Example.world (Example.store None))));
      reflexivity.
Defined.

(** ** Reading the current record set *)

Lemma read_error_is_fatal_not_found err :
  read_error_is_fatal err = false ↔
  errors_As_ResponseError err = Some http_StatusNotFound.
Proof.
  unfold read_error_is_fatal.
  destruct (errors_As_ResponseError err) as [code|]; [|done].
  destruct (Z.eqb_spec code http_StatusNotFound); naive_solver.
Qed.

Lemma uniqRecords_no_entries value rset :
  entries rset = [] → uniqRecords value rset = Val {[ value ]}.
Proof.
  unfold entries. rewrite uniqRecords_spec.
  destruct (Properties rset) as [props|]; [|done].
  intros ->. simpl. f_equal. set_solver.
Qed.

Section Reconciler.
Context {Cred B : Type} `{!ArmDNS Cred B}.
Variable deps : Deps.

(** [Present] once the zone, the client and the relative name are there:
    what remains is the read and what follows it. *)
Lemma Present_after_resolution scope mapiter (d : dnsProvider Cred)
    domain token keyAuth fqdn value zone subDomain (w w1 : World Cred B) :
  GetRecord deps domain keyAuth = (fqdn, value) →
  getHostedZoneID deps d fqdn w = (inr zone, w1) →
  NewRecordSetsClient_error (SubscriptionID (config d)) (authorizer d) = None →
  ExtractSubDomain deps fqdn zone = inr subDomain →
  Present deps scope mapiter d domain token keyAuth w =
  let w2 := logged w1 (EvRecordSetsGet (new_client d) (ResourceGroup (config d))
                         zone subDomain RecordTypeTXT) (backend w1) in
  match RecordSets_Get (new_client d) (ResourceGroup (config d)) zone
          subDomain RecordTypeTXT (backend w1) with
  | inl err =>
      if read_error_is_fatal err
      then (Returned (Some (azure_Errorf err)), w2)
      else Present_upsert scope mapiter d (new_client d) zone subDomain value
             zero_RecordSet w2
  | inr rset =>
      Present_upsert scope mapiter d (new_client d) zone subDomain value rset w2
  end.
Proof.
  intros Hrec Hzone Hclient Hsub. unfold Present.
  rewrite Hrec. unfold mbind, M_bind. rewrite Hzone, Hclient, Hsub.
  unfold call_RecordSets_Get.
  destruct (RecordSets_Get _ _ _ _ _ _) as [err|rset]; [|done].
  by destruct (read_error_is_fatal err).
Qed.

(** The write and the result of [Present] once the map is known. *)
Lemma Present_upsert_Val scope mapiter (d : dnsProvider Cred) rsc
    zone subDomain value rset uniq (w : World Cred B) :
  uniqRecords value rset = Val uniq →
  Present_upsert scope mapiter d rsc zone subDomain value rset w =
  let rec := build_RecordSet scope subDomain (TTL (config d)) (mapiter uniq) in
  let r := RecordSets_CreateOrUpdate rsc (ResourceGroup (config d)) zone
             subDomain RecordTypeTXT rec (backend w) in
  (Returned (azure_Errorf <$> r.1),
   logged w (EvRecordSetsCreateOrUpdate rsc (ResourceGroup (config d)) zone
               subDomain RecordTypeTXT rec) r.2).
Proof.
  intros Huniq. unfold Present_upsert. rewrite Huniq.
  unfold mbind, M_bind, call_RecordSets_CreateOrUpdate. cbv zeta.
  by destruct (RecordSets_CreateOrUpdate _ _ _ _ _ _ _) as [[err|] b].
Qed.

(** C2. When the read of the current record set fails with a not-found
    response, [Present] goes on exactly as it does on a record set without
    entries, and what it returns is the outcome of the write alone; when
    the read fails otherwise, [Present] returns that error (wrapped) and
    the backend is left as it was after the read: no write is issued. *)
Theorem Present_read_error scope mapiter (d : dnsProvider Cred)
    domain token keyAuth fqdn value zone subDomain err (w w1 : World Cred B) :
  GetRecord deps domain keyAuth = (fqdn, value) →
  getHostedZoneID deps d fqdn w = (inr zone, w1) →
  NewRecordSetsClient_error (SubscriptionID (config d)) (authorizer d) = None →
  ExtractSubDomain deps fqdn zone = inr subDomain →
  RecordSets_Get (new_client d) (ResourceGroup (config d)) zone subDomain
    RecordTypeTXT (backend w1) = inl err →
  let w2 := logged w1 (EvRecordSetsGet (new_client d) (ResourceGroup (config d))
                         zone subDomain RecordTypeTXT) (backend w1) in
  let rec :=
    build_RecordSet scope subDomain (TTL (config d)) (mapiter {[ value ]}) in
  let write := RecordSets_CreateOrUpdate (new_client d)
                 (ResourceGroup (config d)) zone subDomain RecordTypeTXT rec
                 (backend w1) in
  (errors_As_ResponseError err = Some http_StatusNotFound →
     (∀ rset0, entries rset0 = [] →
        Present deps scope mapiter d domain token keyAuth w =
        Present_upsert scope mapiter d (new_client d) zone subDomain value
          rset0 w2) ∧
     Present deps scope mapiter d domain token keyAuth w =
     (Returned (azure_Errorf <$> write.1),
      logged w2 (EvRecordSetsCreateOrUpdate (new_client d)
                   (ResourceGroup (config d)) zone subDomain RecordTypeTXT rec)
        write.2)) ∧
  (errors_As_ResponseError err ≠ Some http_StatusNotFound →
     Present deps scope mapiter d domain token keyAuth w =
     (Returned (Some (azure_Errorf err)), w2)).
Proof.
  intros Hrec Hzone Hclient Hsub Hget w2 rec write.
  rewrite (Present_after_resolution _ _ _ _ _ _ _ _ _ _ _ _
             Hrec Hzone Hclient Hsub), Hget.
  cbv zeta. fold w2. split.
  - intros Hnf%read_error_is_fatal_not_found. rewrite Hnf. split.
    + intros rset0 Hempty.
      rewrite !(Present_upsert_Val _ _ _ _ _ _ _ _ {[ value ]});
        [done| by apply uniqRecords_no_entries | done].
    + by rewrite (Present_upsert_Val _ _ _ _ _ _ _ _ {[ value ]}).
  - intros Hother.
    destruct (read_error_is_fatal err) eqn:Hfatal; [done|].
    by apply read_error_is_fatal_not_found in Hfatal.
Qed.
End Reconciler.

(** The first [Present] on a name without a record set: the read is
    answered 404 and the value is written all the same. *)
Lemma Present_read_error_witness :
  Present (Example.deps "") PerIteration Example.forward Example.d
    "example.com" "tok" "abc123" (Example.world (Example.store None))
  = (Returned None,
     {| backend := Example.store (Some [single_TxtRecord "abc123"]);
        trace :=
          [EvFindZoneByFqdn "_acme-challenge.example.com.";
           EvZonesGet (new_client Example.d) "rg" "example.com";
           EvRecordSetsGet (new_client Example.d) "rg" "example.com"
             "_acme-challenge" RecordTypeTXT;
           EvRecordSetsCreateOrUpdate (new_client Example.d) "rg" "example.com"
             "_acme-challenge" RecordTypeTXT
             (Example.rset_of [single_TxtRecord "abc123"])] |}).
Proof.
  pose proof (Present_read_error (Example.deps "") PerIteration Example.forward
                Example.d "example.com" "tok" "abc123"
                "_acme-challenge.example.com." "abc123" "example.com"
                "_acme-challenge" not_found
                (Example.world (Example.store None))
                {| backend := Example.store None;
                   trace := [EvFindZoneByFqdn "_acme-challenge.example.com.";
                             EvZonesGet (new_client Example.d) "rg"
                               "example.com"] |}
                eq_refl eq_refl eq_refl eq_refl eq_refl) as [Hnf _].
  destruct (Hnf eq_refl) as [_ ->].
  vm_compute. reflexivity.
Defined.

(** ** Deleting the record set *)

Section CleanUp.
Context {Cred B : Type} `{!ArmDNS Cred B}.
Variable deps : Deps.

(** C1, as the code has it. Once the zone, the relative name and the
    client are there, [CleanUp] issues the delete and returns its result:
    success exactly when the delete reports no error, and every delete
    error, a not-found response like any other, wrapped with the provider
    prefix. *)
Theorem CleanUp_delete_result (d : dnsProvider Cred)
    domain token keyAuth fqdn value zone subDomain (w w1 : World Cred B) :
  GetRecord deps domain keyAuth = (fqdn, value) →
  getHostedZoneID deps d fqdn w = (inr zone, w1) →
  ExtractSubDomain deps fqdn zone = inr subDomain →
  NewRecordSetsClient_error (SubscriptionID (config d)) (authorizer d) = None →
  let del := RecordSets_Delete (new_client d) (ResourceGroup (config d)) zone
               subDomain RecordTypeTXT (backend w1) in
  CleanUp deps d domain token keyAuth w =
    (Returned (azure_Errorf <$> del.1),
     logged w1 (EvRecordSetsDelete (new_client d) (ResourceGroup (config d))
                  zone subDomain RecordTypeTXT) del.2) ∧
  ((CleanUp deps d domain token keyAuth w).1 = Returned None ↔ del.1 = None).
Proof.
  intros Hrec Hzone Hsub Hclient del.
  assert (CleanUp deps d domain token keyAuth w =
    (Returned (azure_Errorf <$> del.1),
     logged w1 (EvRecordSetsDelete (new_client d) (ResourceGroup (config d))
                  zone subDomain RecordTypeTXT) del.2)) as Heq.
  { unfold CleanUp. rewrite Hrec. unfold mbind, M_bind.
    rewrite Hzone, Hsub, Hclient. unfold call_RecordSets_Delete.
    subst del. by destruct (RecordSets_Delete _ _ _ _ _ _) as [[err|] b]. }
  split; [done|]. rewrite Heq. cbn [fst].
  destruct (del.1); simpl; naive_solver.
Qed.
End CleanUp.

(** On a backend that answers 404 to the delete of an absent record set,
    [CleanUp] of a name that has none returns an error. *)
Lemma CleanUp_not_found_is_error :
  (RecordSets_Delete (new_client Example.d) "rg" "example.com" "_acme-challenge"
     RecordTypeTXT {| strict_store := Example.store None |}).1
  = Some (ResponseError http_StatusNotFound "NotFound") ∧
  (CleanUp (Example.deps "") Example.d "example.com" "tok" "key"
     (Example.world {| strict_store := Example.store None |})).1
  = Returned (Some (WrapError "azure: "
                      (ResponseError http_StatusNotFound "NotFound"))) ∧
  (CleanUp (Example.deps "") Example.d "example.com" "tok" "key"
     (Example.world {| strict_store := Example.store None |})).1
  ≠ Returned None.
Proof. split; [|split]; [vm_compute; reflexivity..|vm_compute; discriminate]. Qed.

Lemma CleanUp_delete_result_witness :
  (CleanUp (Example.deps "") Example.d "example.com" "tok" "key"
     (Example.world {| strict_store := Example.store None |})).1
  = Returned (Some (azure_Errorf not_found)) ∧
  (CleanUp (Example.deps "") Example.d "example.com" "tok" "key"
     (Example.world (Example.store (Some [single_TxtRecord "abc123"])))).1
  = Returned None.
Proof.
  split.
  - pose proof (CleanUp_delete_result (Example.deps "") Example.d
                  "example.com" "tok" "key" "_acme-challenge.example.com."
                  "key" "example.com" "_acme-challenge"
                  (Example.world {| strict_store := Example.store None |})
                  {| backend := {| strict_store := Example.store None |};
                     trace := [EvFindZoneByFqdn "_acme-challenge.example.com.";
                               EvZonesGet (new_client Example.d) "rg"
                                 "example.com"] |}
                  eq_refl eq_refl eq_refl eq_refl) as [-> _].
    vm_compute. reflexivity.
  - pose proof (CleanUp_delete_result (Example.deps "") Example.d
                  "example.com" "tok" "key" "_acme-challenge.example.com."
                  "key" "example.com" "_acme-challenge"
                  (Example.world
                     (Example.store (Some [single_TxtRecord "abc123"])))
                  {| backend := Example.store (Some [single_TxtRecord "abc123"]);
                     trace := [EvFindZoneByFqdn "_acme-challenge.example.com.";
                               EvZonesGet (new_client Example.d) "rg"
                                 "example.com"] |}
                  eq_refl eq_refl eq_refl eq_refl) as [_ Hiff].
    apply Hiff. reflexivity.
Defined.

(** ** Errors and their prefix *)

Lemma azure_Errorf_prefixed err : azure_prefixed (azure_Errorf err) = true.
Proof. reflexivity. Qed.

Section Errors.
Context {Cred B : Type} `{!ArmDNS Cred B}.
Variable deps : Deps.
Variable NewEnvironmentCredential :
  EnvironmentCredentialOptions → error + Cred.

Lemma getHostedZoneID_backend (d : dnsProvider Cred) fqdn (w : World Cred B) :
  backend (getHostedZoneID deps d fqdn w).2 = backend w.
Proof.
  unfold getHostedZoneID, mbind, M_bind, call_FindZoneByFqdn, call_Zones_Get.
  repeat case_match; simplify_eq; done.
Qed.

(** Every error [Present] returns is made by [fmt.Errorf("azure: %w", _)];
    it is returned as soon as it is met. *)
Lemma Present_error_wrapped scope mapiter (d : dnsProvider Cred)
    domain token keyAuth (w : World Cred B) err :
  (Present deps scope mapiter d domain token keyAuth w).1 = Returned (Some err) →
  ∃ cause, err = azure_Errorf cause.
Proof.
  unfold Present, Present_upsert, mbind, M_bind, mret, M_ret,
    call_RecordSets_Get, call_RecordSets_CreateOrUpdate.
  repeat case_match; simpl; intros; simplify_eq; eauto.
Qed.

Lemma CleanUp_error_wrapped (d : dnsProvider Cred)
    domain token keyAuth (w : World Cred B) err :
  (CleanUp deps d domain token keyAuth w).1 = Returned (Some err) →
  ∃ cause, err = azure_Errorf cause.
Proof.
  unfold CleanUp, mbind, M_bind, mret, M_ret, call_RecordSets_Delete.
  repeat case_match; simpl; intros; simplify_eq; eauto.
Qed.

(** X25. The errors of the construction, one by one: an error of
    [NewDNSProviderConfig] either starts with ["azure: "], or it is the
    failure of the credential wrapped under
    ["azidentity.NewEnvironmentCredential failed: "]. *)
Lemma NewDNSProviderConfig_errors config err :
  NewDNSProviderConfig NewEnvironmentCredential config = inl err →
  azure_prefixed err = true ∨
  ∃ cause,
    NewEnvironmentCredential
      {| ClientOptions_ := {| Cloud := AzureChina |} |} = inl cause ∧
    err = WrapError "azidentity.NewEnvironmentCredential failed: " cause.
Proof.
  unfold NewDNSProviderConfig.
  repeat case_match; intros; simplify_eq; eauto.
Qed.
End Errors.

(** C7 at the input where it fails: the subscription and the resource group
    are set and the environment lacks the tenant, so the credential cannot
    be made. The error of the construction starts with
    [azidentity.NewEnvironmentCredential failed: ], not with [azure: ]. *)
Theorem NewDNSProviderConfig_credential_error_not_prefixed :
  ∃ err,
    NewDNSProviderConfig (Cred := EnvironmentCredentialOptions)
      (λ _, inl (ErrorString "missing environment variable AZURE_TENANT_ID"))
      (Some Example.cfg) = inl err ∧
    Error err = "azidentity.NewEnvironmentCredential failed: " +:+
                "missing environment variable AZURE_TENANT_ID" ∧
    azure_prefixed err = false.
Proof. eexists. split; [reflexivity|]. split; reflexivity. Qed.

(** ** The credential *)

Section Credential.
Context {Cred B : Type} `{!ArmDNS Cred B}.
Variable deps : Deps.
Variable NewEnvironmentCredential :
  EnvironmentCredentialOptions → error + Cred.

Lemma NewDNSProviderConfig_authorizer config p :
  NewDNSProviderConfig NewEnvironmentCredential config = inr p →
  NewEnvironmentCredential china = inr (authorizer (provider p)).
Proof.
  unfold NewDNSProviderConfig, china.
  repeat case_match; intros; simplify_eq; done.
Qed.

Lemma NewDNSProvider_authorizer p :
  NewDNSProvider deps NewEnvironmentCredential = inr p →
  NewEnvironmentCredential china = inr (authorizer (provider p)).
Proof.
  unfold NewDNSProvider. cbv zeta.
  repeat case_match; intros; simplify_eq;
    eauto using NewDNSProviderConfig_authorizer.
Qed.

Lemma getHostedZoneID_calls (d : dnsProvider Cred) fqdn (w : World Cred B) :
  ∃ calls, trace (getHostedZoneID deps d fqdn w).2 = trace w ++ calls ∧
           Forall (made_with (authorizer d)) calls.
Proof.
  unfold getHostedZoneID, mbind, M_bind, mret, M_ret, call_FindZoneByFqdn,
    call_Zones_Get, logged.
  repeat case_match; simplify_eq; simpl.
  all: try (exists []; rewrite app_nil_r; by split).
  all: try (eexists [_]; split; [done|];
            repeat constructor; by intros c [= <-]).
  all: eexists [_; _]; rewrite <- app_assoc; split; [done|];
    repeat constructor; by intros c [= <-].
Qed.
Lemma Present_calls scope mapiter (d : dnsProvider Cred)
    domain token keyAuth (w : World Cred B) :
  ∃ calls,
    trace (Present deps scope mapiter d domain token keyAuth w).2
    = trace w ++ calls ∧
    Forall (made_with (authorizer d)) calls.
Proof.
  unfold Present. destruct (GetRecord deps domain keyAuth) as [fqdn value].
  unfold mbind, M_bind.
  destruct (getHostedZoneID_calls d fqdn w) as (calls & Htrace & Hcalls).
  destruct (getHostedZoneID deps d fqdn w) as [zone w1]. simpl in Htrace.
  unfold Present_upsert, mbind, M_bind, mret, M_ret, call_RecordSets_Get,
    call_RecordSets_CreateOrUpdate, logged.
  repeat case_match; simplify_eq; simpl; rewrite ?Htrace.
  all: try (exists calls; by split).
  all: try (eexists (calls ++ [_]);
            rewrite <- ?app_assoc; split; [done|];
            apply Forall_app; split; [done|];
            repeat constructor; by intros c [= <-]).
  all: eexists (calls ++ [_; _]); rewrite <- !app_assoc; split; [done|];
    apply Forall_app; split; [done|];
    repeat constructor; by intros c [= <-].
Qed.

Lemma CleanUp_calls (d : dnsProvider Cred) domain token keyAuth
    (w : World Cred B) :
  ∃ calls,
    trace (CleanUp deps d domain token keyAuth w).2 = trace w ++ calls ∧
    Forall (made_with (authorizer d)) calls.
Proof.
  unfold CleanUp. destruct (GetRecord deps domain keyAuth) as [fqdn value].
  unfold mbind, M_bind.
  destruct (getHostedZoneID_calls d fqdn w) as (calls & Htrace & Hcalls).
  destruct (getHostedZoneID deps d fqdn w) as [zone w1]. simpl in Htrace.
  unfold mbind, M_bind, mret, M_ret, call_RecordSets_Delete, logged.
  repeat case_match; simplify_eq; simpl; rewrite ?Htrace.
  all: try (exists calls; by split).
  all: eexists (calls ++ [_]); rewrite <- !app_assoc; split; [done|];
    apply Forall_app; split; [done|];
    repeat constructor; by intros c [= <-].
Qed.

(** C10. A provider that [NewDNSProviderConfig] returns for a
    configuration holds the credential made from the AzureChina client
    options; the same credential results whatever [CloudConfig] the
    configuration carries, also through [NewDNSProvider], which sets
    [CloudConfig] from the environment; and every backend call of
    [Present] and [CleanUp] is made with that credential. *)
Theorem NewDNSProviderConfig_credential_AzureChina (cfg : Config)
    (p : DNSProvider Cred) :
  NewDNSProviderConfig NewEnvironmentCredential (Some cfg) = inr p →
  NewEnvironmentCredential china = inr (authorizer (provider p)) ∧
  (∀ cloud, ∃ p',
      NewDNSProviderConfig NewEnvironmentCredential
        (Some (with_CloudConfig cfg cloud)) = inr p' ∧
      authorizer (provider p') = authorizer (provider p)) ∧
  (∀ p0, NewDNSProvider deps NewEnvironmentCredential = inr p0 →
         authorizer (provider p0) = authorizer (provider p)) ∧
  (∀ scope mapiter domain token keyAuth (w : World Cred B), ∃ calls,
      trace (DNSProvider_Present deps scope mapiter p domain token keyAuth w).2
      = trace w ++ calls ∧
      Forall (made_with (authorizer (provider p))) calls) ∧
  (∀ domain token keyAuth (w : World Cred B), ∃ calls,
      trace (DNSProvider_CleanUp deps p domain token keyAuth w).2
      = trace w ++ calls ∧
      Forall (made_with (authorizer (provider p))) calls).
Proof.
  intros Hp. pose proof (NewDNSProviderConfig_authorizer _ _ Hp) as Hcred.
  split; [done|]. split; [|split; [|split]].
  - intros cloud. revert Hp. unfold china in Hcred.
    unfold NewDNSProviderConfig. rewrite Hcred.
    destruct (HTTPClient cfg) eqn:Hhttp; simpl; rewrite ?Hhttp;
      repeat case_match; intros; simplify_eq; simpl in *;
      try congruence; eauto.
  - intros p0 Hp0%NewDNSProvider_authorizer. congruence.
  - intros. apply Present_calls.
  - intros. apply CleanUp_calls.
Qed.
End Credential.

(** A configuration for the public cloud: the credential is made from the
    AzureChina options all the same. *)
Lemma NewDNSProviderConfig_credential_AzureChina_witness :
  CloudConfig Example.cfg = AzurePublic ∧
  NewDNSProviderConfig (Cred := EnvironmentCredentialOptions) inr
    (Some Example.cfg) = inr {| provider := Example.d |} ∧
  (inr china : error + EnvironmentCredentialOptions)
  = inr (authorizer Example.d).
Proof.
  split; [reflexivity|]. split; [reflexivity|].
  exact (proj1 (NewDNSProviderConfig_credential_AzureChina
                  (B := MemStore) (Example.deps "") inr Example.cfg
                  {| provider := Example.d |} eq_refl)).
Defined.

(** ** What the merge keeps of the existing entries *)

Lemma ranges_over_elem_of mapiter X k :
  ranges_over mapiter → k ∈ mapiter X ↔ k ∈ X.
Proof. intros Hr. rewrite (Hr X). apply elem_of_elements. Qed.

Lemma ranges_over_list_to_set mapiter (X : gset string) :
  ranges_over mapiter → list_to_set (mapiter X) = X.
Proof.
  intros Hr. apply set_eq. intros k.
  rewrite elem_of_list_to_set. by apply ranges_over_elem_of.
Qed.

(** A map of one key is ranged over in one way, and one record is rebuilt
    from it, whatever the scope of the loop variable: the first [Present]
    on a name writes exactly the new value. *)
Lemma build_txtRecords_singleton scope mapiter value :
  ranges_over mapiter →
  build_txtRecords scope (mapiter {[ value ]}) = [single_TxtRecord value].
Proof.
  intros Hr. pose proof (Hr {[ value ]}) as Hp.
  rewrite elements_singleton in Hp. apply Permutation_singleton_r in Hp.
  rewrite Hp. by destruct scope.
Qed.

Lemma ranges_over_forward : ranges_over Example.forward.
Proof. intros X. reflexivity. Qed.

Lemma ranges_over_backward : ranges_over Example.backward.
Proof. intros X. unfold Example.backward. apply reverse_Permutation. Qed.


Section Merge.
Context {Cred B : Type} `{!ArmDNS Cred B}.


(** C9. The merge faults on no malformed entry: it panics exactly when an
    entry of the slice is nil, whatever the strings of the other entries.
    An entry whose string list is empty or starts with a nil string adds
    nothing: the map, and with it the write and the result of [Present],
    are those of the record set without such entries, and no record
    written back is malformed. *)
Theorem Present_merge_malformed scope mapiter (d : dnsProvider Cred) rsc
    zone subDomain value rset (w : World Cred B) :
  (uniqRecords value rset = Panic ↔ has_nil_entry (entries rset) = true) ∧
  uniqRecords value (drop_malformed rset) = uniqRecords value rset ∧
  Present_upsert scope mapiter d rsc zone subDomain value rset w =
  Present_upsert scope mapiter d rsc zone subDomain value
    (drop_malformed rset) w ∧
  ∀ keys r, r ∈ build_txtRecords scope keys →
    ∃ r', r = Some r' ∧ malformed r' = false.
Proof.
  split; [|split; [|split]].
  - rewrite uniqRecords_spec. unfold entries.
    destruct (Properties rset) as [props|]; simpl; [|done].
    destruct (has_nil_entry _); done.
  - apply uniqRecords_drop_malformed.
  - unfold Present_upsert. by rewrite uniqRecords_drop_malformed.
  - intros keys r (k & _ & ->)%build_txtRecords_entries. by eexists.
Qed.
End Merge.


Example Present_drops_tail_and_malformed :
  entries
    (build_RecordSet PerIteration "_acme-challenge" 60
       (Example.forward
          match uniqRecords "def456"
                  (Example.rset_of
                     [Some {| Value := [Some "abc123"; Some "tail"] |};
                      Some {| Value := [] |};
                      Some {| Value := [None; Some "x"] |}]) with
          | Val uniq => uniq
          | Panic => ∅
          end))
  = [single_TxtRecord "abc123"; single_TxtRecord "def456"].
Proof. vm_compute. reflexivity. Qed.

(** ** [Present] on the reference store *)

Lemma txt_strings_single keys : txt_strings (map single_TxtRecord keys) = keys.
Proof. induction keys as [|k keys IH]; simpl; [done|]. by rewrite IH. Qed.

Lemma first_strings_single keys :
  first_strings (map single_TxtRecord keys) = keys.
Proof. induction keys as [|k keys IH]; simpl; [done|]. by rewrite IH. Qed.

Lemma has_nil_entry_single keys :
  has_nil_entry (map single_TxtRecord keys) = false.
Proof. induction keys as [|k keys IH]; simpl; done. Qed.

Lemma RecordSet_values_PerIteration subDomain ttl keys :
  RecordSet_values (build_RecordSet PerIteration subDomain ttl keys)
  = list_to_set keys.
Proof.
  unfold RecordSet_values, build_RecordSet. cbn [Properties TxtRecords].
  by rewrite build_txtRecords_PerIteration, txt_strings_single.
Qed.

(** With one variable for the loop, what is written holds a single value,
    the key ranged over last, however many keys there are. *)
Lemma RecordSet_values_PerLoop subDomain ttl k0 keys :
  RecordSet_values (build_RecordSet PerLoop subDomain ttl (k0 :: keys))
  = {[ List.last keys k0 ]}.
Proof.
  unfold RecordSet_values, build_RecordSet. cbn [Properties TxtRecords].
  rewrite build_txtRecords_PerLoop. generalize (List.last keys k0). intros k.
  induction (length keys) as [|n IH]; simpl in *; set_solver.
Qed.

Lemma uniqRecords_rebuilt mapiter value' subDomain ttl (X : gset string) :
  ranges_over mapiter →
  uniqRecords value' (build_RecordSet PerIteration subDomain ttl (mapiter X))
  = Val ({[ value' ]} ∪ X).
Proof.
  intros Hr. rewrite uniqRecords_spec. cbn [build_RecordSet Properties TxtRecords].
  rewrite build_txtRecords_PerIteration, has_nil_entry_single,
    first_strings_single.
  by rewrite ranges_over_list_to_set.
Qed.

Lemma stored_values_put rg zone sub rec b rg' zone' sub' :
  stored_values rg' zone' sub' (mem_put rg zone sub rec b) =
  if decide ((rg, zone, sub) = (rg', zone', sub'))
  then RecordSet_values rec
  else stored_values rg' zone' sub' b.
Proof.
  unfold stored_values, mem_put. cbn [mem_records].
  rewrite lookup_insert. by case_decide.
Qed.

Section OnStore.
Context {Cred : Type}.
Variable deps : Deps.

Abbreviation W := (World Cred MemStore).

Lemma getHostedZoneID_on_store (d : dnsProvider Cred) fqdn (w : W) :
  (getHostedZoneID deps d fqdn w).1 = resolve_zone deps d fqdn (backend w) ∧
  backend (getHostedZoneID deps d fqdn w).2 = backend w.
Proof.
  unfold resolve_zone, getHostedZoneID, mbind, M_bind, mret, M_ret,
    call_FindZoneByFqdn, call_Zones_Get, logged.
  repeat case_match; simplify_eq; simpl in *; split; congruence.
Qed.

Lemma resolve_zone_put (d : dnsProvider Cred) fqdn rg zone sub rec b :
  resolve_zone deps d fqdn (mem_put rg zone sub rec b) = resolve_zone deps d fqdn b.
Proof.
  unfold resolve_zone, getHostedZoneID, mbind, M_bind, mret, M_ret,
    call_FindZoneByFqdn, call_Zones_Get, logged.
  cbn [backend Zones_Get MemStore_ArmDNS NewZonesClient_error].
  unfold mem_get_zone, mem_put. cbn [mem_zones].
  repeat case_match; simplify_eq; simpl in *; congruence.
Qed.

Lemma Present_store scope mapiter (d : dnsProvider Cred)
    domain token keyAuth (w : W) :
  ((Present deps scope mapiter d domain token keyAuth w).1,
   backend (Present deps scope mapiter d domain token keyAuth w).2)
  = Present_on_store deps scope mapiter d (GetRecord deps domain keyAuth).1
      (GetRecord deps domain keyAuth).2 (backend w).
Proof.
  unfold Present, Present_on_store.
  destruct (GetRecord deps domain keyAuth) as [fqdn value]. cbn [fst snd].
  unfold mbind, M_bind.
  destruct (getHostedZoneID_on_store d fqdn w) as [Hz Hb].
  destruct (getHostedZoneID deps d fqdn w) as [z w1]. simpl in Hz, Hb.
  rewrite <- Hz, <- Hb. destruct z as [err|zone]; [done|].
  cbn [NewRecordSetsClient_error MemStore_ArmDNS].
  destruct (ExtractSubDomain deps fqdn zone) as [err|subDomain]; [done|].
  unfold call_RecordSets_Get, current_rset.
  cbn [RecordSets_Get MemStore_ArmDNS]. unfold mem_get.
  destruct (mem_records (backend w1) !! _) as [rset|];
    [|change (read_error_is_fatal not_found) with false; cbv iota];
    unfold Present_upsert; destruct (uniqRecords value _); done.
Qed.
End OnStore.

Lemma uniqRecords_has_value value rset uniq :
  uniqRecords value rset = Val uniq → value ∈ uniq.
Proof.
  rewrite uniqRecords_spec. destruct (Properties rset) as [props|].
  - destruct (has_nil_entry _); [done|]. intros [= <-]. set_solver.
  - intros [= <-]. set_solver.
Qed.

Lemma current_rset_put rg zone sub rec b :
  current_rset rg zone sub (mem_put rg zone sub rec b) = rec.
Proof.
  unfold current_rset, mem_get, mem_put. cbn [mem_records].
  by rewrite lookup_insert_eq.
Qed.

Lemma stored_values_current rg zone sub b :
  stored_values rg zone sub b = RecordSet_values (current_rset rg zone sub b).
Proof.
  unfold stored_values, current_rset, mem_get.
  by destruct (mem_records b !! _).
Qed.

Lemma RecordSet_values_first_strings rset uniq value :
  uniqRecords value rset = Val uniq →
  uniq = {[ value ]} ∪ list_to_set (first_strings (entries rset)).
Proof.
  rewrite uniqRecords_spec. unfold entries.
  destruct (Properties rset) as [props|].
  - destruct (has_nil_entry _); [done|]. by intros [= <-].
  - intros [= <-]. set_solver.
Qed.

Section Sequences.
Context {Cred : Type}.
Variable deps : Deps.

(** With a variable per iteration, a second [Present] of the same value
    ends as the first did and leaves every value set as the first left
    it. *)
Lemma Present_on_store_idempotent m1 m2 (d : dnsProvider Cred) fqdn value b :
  ranges_over m1 → ranges_over m2 →
  let r1 := Present_on_store deps PerIteration m1 d fqdn value b in
  let r2 := Present_on_store deps PerIteration m2 d fqdn value r1.2 in
  r2.1 = r1.1 ∧
  ∀ rg zone sub, stored_values rg zone sub r2.2 = stored_values rg zone sub r1.2.
Proof.
  intros Hr1 Hr2. unfold Present_on_store.
  destruct (resolve_zone deps d fqdn b) as [err|zone] eqn:Hz; cbn [fst snd].
  { by rewrite Hz. }
  destruct (ExtractSubDomain deps fqdn zone) as [err|subDomain] eqn:Hs;
    cbn [fst snd].
  { by rewrite Hz, Hs. }
  destruct (uniqRecords value _) as [uniq|] eqn:Hu; cbn [fst snd].
  2: { by rewrite Hz, Hs, Hu. }
  rewrite resolve_zone_put, Hz, Hs, current_rset_put.
  rewrite (uniqRecords_rebuilt m1) by done.
  apply uniqRecords_has_value in Hu.
  replace ({[value]} ∪ uniq) with uniq by set_solver.
  cbn [fst snd]. split; [done|]. intros rg zone' sub.
  rewrite !stored_values_put. case_decide; [|done].
  by rewrite !RecordSet_values_PerIteration, !ranges_over_list_to_set.
Qed.

(** With a variable per iteration, what [Present] stores under the record
    name is the new value together with the first strings found there,
    and a [Present] of another value for the same name adds to it. *)
Lemma Present_on_store_additive m1 m2 (d : dnsProvider Cred) fqdn A B' b b1 :
  ranges_over m1 → ranges_over m2 →
  Present_on_store deps PerIteration m1 d fqdn A b = (Returned None, b1) →
  ∃ zone subDomain b2,
    resolve_zone deps d fqdn b = inr zone ∧
    ExtractSubDomain deps fqdn zone = inr subDomain ∧
    Present_on_store deps PerIteration m2 d fqdn B' b1 = (Returned None, b2) ∧
    stored_values (ResourceGroup (config d)) zone subDomain b1
    = {[ A ]} ∪ list_to_set (first_strings (entries
                  (current_rset (ResourceGroup (config d)) zone subDomain b))) ∧
    stored_values (ResourceGroup (config d)) zone subDomain b2
    = {[ B' ]} ∪ stored_values (ResourceGroup (config d)) zone subDomain b1.
Proof.
  intros Hr1 Hr2. unfold Present_on_store.
  destruct (resolve_zone deps d fqdn b) as [err|zone] eqn:Hz; [done|].
  destruct (ExtractSubDomain deps fqdn zone) as [err|subDomain] eqn:Hs;
    [done|].
  destruct (uniqRecords A _) as [uniq|] eqn:Hu; [|done].
  intros [= <-]. exists zone, subDomain.
  rewrite resolve_zone_put, Hz, Hs, current_rset_put.
  rewrite (uniqRecords_rebuilt m1) by done.
  eexists. split; [done|]. split; [done|]. split; [done|].
  rewrite !stored_values_put, !decide_True by done.
  rewrite !RecordSet_values_PerIteration, !ranges_over_list_to_set by done.
  split; [|done]. by apply RecordSet_values_first_strings.
Qed.

(** X22. Idempotence of [Present], for a toolchain that gives the loop a
    variable per iteration: on every store, a second call with the same
    arguments returns what the first returned and leaves under every
    record name the value set the first call left. *)
Lemma Present_idempotent_PerIteration m1 m2 (d : dnsProvider Cred)
    domain token keyAuth (w : World Cred MemStore) :
  ranges_over m1 → ranges_over m2 →
  let once := Present deps PerIteration m1 d domain token keyAuth w in
  let twice := Present deps PerIteration m2 d domain token keyAuth once.2 in
  twice.1 = once.1 ∧
  ∀ rg zone sub,
    stored_values rg zone sub (backend twice.2)
    = stored_values rg zone sub (backend once.2).
Proof.
  intros Hr1 Hr2 once twice.
  pose proof (Present_store deps PerIteration m1 d domain token keyAuth w)
    as H1.
  pose proof (Present_store deps PerIteration m2 d domain token keyAuth once.2)
    as H2.
  fold once in H1. fold twice in H2.
  pose proof (Present_on_store_idempotent m1 m2 d
                (GetRecord deps domain keyAuth).1
                (GetRecord deps domain keyAuth).2 (backend w) Hr1 Hr2)
    as [Ho Hv].
  cbv zeta in Ho, Hv. rewrite <- H1 in Ho, Hv. cbn [fst snd] in Ho, Hv.
  rewrite <- H2 in Ho, Hv. done.
Qed.

(** X23. Additivity of [Present], for a toolchain that gives the loop a
    variable per iteration: after a successful [Present] of [A], a
    [Present] of [B] for the same record name succeeds, and the record
    set then holds both. *)
Lemma Present_additive_PerIteration m1 m2 (d : dnsProvider Cred)
    domainA keyAuthA domainB keyAuthB token fqdn A B'
    (w : World Cred MemStore) :
  ranges_over m1 → ranges_over m2 →
  GetRecord deps domainA keyAuthA = (fqdn, A) →
  GetRecord deps domainB keyAuthB = (fqdn, B') →
  let first := Present deps PerIteration m1 d domainA token keyAuthA w in
  let second := Present deps PerIteration m2 d domainB token keyAuthB first.2 in
  first.1 = Returned None →
  second.1 = Returned None ∧
  ∃ zone subDomain,
    resolve_zone deps d fqdn (backend w) = inr zone ∧
    ExtractSubDomain deps fqdn zone = inr subDomain ∧
    stored_values (ResourceGroup (config d)) zone subDomain (backend first.2)
    = {[ A ]} ∪ list_to_set (first_strings (entries
                  (current_rset (ResourceGroup (config d)) zone subDomain
                     (backend w)))) ∧
    stored_values (ResourceGroup (config d)) zone subDomain (backend second.2)
    = {[ B' ]} ∪ stored_values (ResourceGroup (config d)) zone subDomain
                   (backend first.2) ∧
    {[ A; B' ]} ⊆ stored_values (ResourceGroup (config d)) zone subDomain
                    (backend second.2).
Proof.
  intros Hr1 Hr2 HA HB first second Hok.
  pose proof (Present_store deps PerIteration m1 d domainA token keyAuthA w)
    as H1.
  pose proof (Present_store deps PerIteration m2 d domainB token keyAuthB
                first.2) as H2.
  fold first in H1. fold second in H2.
  rewrite HA in H1. rewrite HB in H2. cbn [fst snd] in H1, H2.
  rewrite Hok in H1. symmetry in H1.
  destruct (Present_on_store_additive m1 m2 d fqdn A B' _ _ Hr1 Hr2 H1)
    as (zone & subDomain & b2 & Hz & Hs & Hsecond & Hv1 & Hv2).
  rewrite Hsecond in H2. injection H2 as Ho Hb.
  split; [done|]. exists zone, subDomain.
  rewrite Hb. split; [done|]. split; [done|]. split; [done|].
  split; [done|]. rewrite Hv2, Hv1. set_solver.
Qed.
End Sequences.

(** ** One loop variable for the whole loop: what is written *)

Section PerLoop.
Context {Cred : Type}.
Variable deps : Deps.

(** When the loop has a single variable, every record that [Present]
    builds points to it, and the record set stored by a successful
    [Present] holds one value only, in whatever order the map is ranged
    over. *)
Lemma Present_on_store_PerLoop_single mapiter (d : dnsProvider Cred)
    fqdn value b b1 :
  ranges_over mapiter →
  Present_on_store deps PerLoop mapiter d fqdn value b = (Returned None, b1) →
  ∃ zone subDomain k,
    resolve_zone deps d fqdn b = inr zone ∧
    ExtractSubDomain deps fqdn zone = inr subDomain ∧
    stored_values (ResourceGroup (config d)) zone subDomain b1 = {[ k ]}.
Proof.
  intros Hr. unfold Present_on_store.
  destruct (resolve_zone deps d fqdn b) as [err|zone] eqn:Hz; [done|].
  destruct (ExtractSubDomain deps fqdn zone) as [err|subDomain] eqn:Hs;
    [done|].
  destruct (uniqRecords value _) as [uniq|] eqn:Hu; [|done].
  intros [= <-]. exists zone, subDomain.
  apply uniqRecords_has_value, (ranges_over_elem_of mapiter) in Hu; [|done].
  destruct (mapiter uniq) as [|k0 keys]; [by apply elem_of_nil in Hu|].
  exists (List.last keys k0). split; [done|]. split; [done|].
  rewrite stored_values_put, decide_True by done.
  apply RecordSet_values_PerLoop.
Qed.
(** X24. With one variable for the whole loop, no [Present] leaves two
    different values under the name it writes, whatever was there before
    and in whatever order the map is ranged over. *)
Lemma Present_PerLoop_not_both mapiter (d : dnsProvider Cred)
    domain token keyAuth (w : World Cred MemStore) A B' :
  ranges_over mapiter → A ≠ B' →
  (Present deps PerLoop mapiter d domain token keyAuth w).1 = Returned None →
  ∃ zone subDomain,
    resolve_zone deps d (GetRecord deps domain keyAuth).1 (backend w) = inr zone ∧
    ExtractSubDomain deps (GetRecord deps domain keyAuth).1 zone = inr subDomain ∧
    ¬ ({[ A; B' ]} ⊆
       stored_values (ResourceGroup (config d)) zone subDomain
         (backend (Present deps PerLoop mapiter d domain token keyAuth w).2)).
Proof.
  intros Hr Hne Hok.
  pose proof (Present_store deps PerLoop mapiter d domain token keyAuth w) as Hs.
  rewrite Hok in Hs. symmetry in Hs.
  destruct (Present_on_store_PerLoop_single _ _ _ _ _ _ Hr Hs)
    as (zone & subDomain & k & Hz & Hsub & Hv).
  exists zone, subDomain. split; [done|]. split; [done|].
  rewrite Hv. intros Hboth. apply Hne.
  assert (A ∈ ({[ k ]} : gset string)) as HA by (apply Hboth; set_solver).
  assert (B' ∈ ({[ k ]} : gset string)) as HB by (apply Hboth; set_solver).
  apply elem_of_singleton in HA, HB. congruence.
Qed.
End PerLoop.

(** C3 where it fails, with one loop variable for the whole loop. The name
    holds ["abc123"] and ["def456"] is presented twice. The first call
    ranges over the map with ["abc123"] last and stores that value twice;
    the second ranges over it with ["def456"] last and stores that one
    twice. Both calls succeed, and the value set after two calls is not the
    value set after one. *)
Theorem Present_twice_PerLoop_differs :
  (Scenario.present PerLoop Example.backward "def456" Scenario.w_abc).1
  = Returned None ∧
  Scenario.name_entries
    (backend (Scenario.present PerLoop Example.backward "def456"
                Scenario.w_abc).2)
  = Some [single_TxtRecord "abc123"; single_TxtRecord "abc123"] ∧
  (Scenario.present PerLoop Example.forward "def456"
     (Scenario.present PerLoop Example.backward "def456" Scenario.w_abc).2).1
  = Returned None ∧
  Scenario.name_entries
    (backend (Scenario.present PerLoop Example.forward "def456"
                (Scenario.present PerLoop Example.backward "def456"
                   Scenario.w_abc).2).2)
  = Some [single_TxtRecord "def456"; single_TxtRecord "def456"] ∧
  Scenario.name_values
    (backend (Scenario.present PerLoop Example.backward "def456"
                Scenario.w_abc).2)
  = ["abc123"] ∧
  Scenario.name_values
    (backend (Scenario.present PerLoop Example.forward "def456"
                (Scenario.present PerLoop Example.backward "def456"
                   Scenario.w_abc).2).2)
  = ["def456"].
Proof. repeat split; vm_compute; reflexivity. Qed.

(** C4 where it fails, with one loop variable for the whole loop. ["abc123"]
    is presented on a name without a record set, then ["def456"] on the
    same name. Both calls succeed. The second call stores two records that
    hold the key ranged over last: ["def456"] twice in one order,
    ["abc123"] twice in the other, and in neither case both values. *)
Theorem Present_then_Present_PerLoop_loses_value :
  (Scenario.present PerLoop Example.forward "abc123" Scenario.w_none).1
  = Returned None ∧
  Scenario.name_values
    (backend (Scenario.present PerLoop Example.forward "abc123"
                Scenario.w_none).2)
  = ["abc123"] ∧
  (Scenario.present PerLoop Example.forward "def456"
     (Scenario.present PerLoop Example.forward "abc123" Scenario.w_none).2).1
  = Returned None ∧
  Scenario.name_entries
    (backend (Scenario.present PerLoop Example.forward "def456"
                (Scenario.present PerLoop Example.forward "abc123"
                   Scenario.w_none).2).2)
  = Some [single_TxtRecord "def456"; single_TxtRecord "def456"] ∧
  Scenario.name_values
    (backend (Scenario.present PerLoop Example.forward "def456"
                (Scenario.present PerLoop Example.forward "abc123"
                   Scenario.w_none).2).2)
  = ["def456"] ∧
  Scenario.name_values
    (backend (Scenario.present PerLoop Example.backward "def456"
                (Scenario.present PerLoop Example.forward "abc123"
                   Scenario.w_none).2).2)
  = ["abc123"].
Proof. repeat split; vm_compute; reflexivity. Qed.

(** The same two scenarios with a variable per iteration. *)
Example Present_twice_PerIteration_same :
  Scenario.name_values
    (backend (Scenario.present PerIteration Example.backward "def456"
                Scenario.w_abc).2)
  = ["abc123"; "def456"] ∧
  Scenario.name_values
    (backend (Scenario.present PerIteration Example.forward "def456"
                (Scenario.present PerIteration Example.backward "def456"
                   Scenario.w_abc).2).2)
  = ["abc123"; "def456"].
Proof. repeat split; vm_compute; reflexivity. Qed.

Example Present_then_Present_PerIteration_both :
  Scenario.name_values
    (backend (Scenario.present PerIteration Example.forward "def456"
                (Scenario.present PerIteration Example.forward "abc123"
                   Scenario.w_none).2).2)
  = ["abc123"; "def456"].
Proof. vm_compute. reflexivity. Qed.

(** * Further properties of the provider *)

(** ** The calls a method makes and what it changes *)

Section Runs.
Context {Cred B : Type} `{!ArmDNS Cred B}.
Variable deps : Deps.

(** The zone resolution only appends its own calls and hands the backend on
    as it is. *)
Lemma getHostedZoneID_world (d : dnsProvider Cred) fqdn (w : World Cred B) :
  ∃ zcalls,
    (getHostedZoneID deps d fqdn w).2
    = {| backend := backend w; trace := trace w ++ zcalls |} ∧
    forallb is_zone_call zcalls = true ∧
    Forall (scoped_to d) zcalls.
Proof.
  unfold getHostedZoneID, mbind, M_bind, mret, M_ret, call_FindZoneByFqdn,
    call_Zones_Get, logged.
  destruct w as [b t].
  repeat case_match; simplify_eq; simpl.
  all: try (exists []; rewrite app_nil_r; by repeat split).
  all: try (eexists [_]; split; [done|]; split; [done|];
            repeat constructor; simpl; intros; by simplify_eq).
  all: eexists [_; _]; rewrite <- app_assoc; split; [done|]; split; [done|];
    repeat constructor; simpl; intros; by simplify_eq.
Qed.

(** [Present], bind by bind. *)
Lemma Present_run scope mapiter (d : dnsProvider Cred) domain token keyAuth
    (w : World Cred B) :
  Present deps scope mapiter d domain token keyAuth w =
  let fqdn := (GetRecord deps domain keyAuth).1 in
  let value := (GetRecord deps domain keyAuth).2 in
  let z := getHostedZoneID deps d fqdn w in
  match z.1 with
  | inl err => (Returned (Some (azure_Errorf err)), z.2)
  | inr zone =>
      match NewRecordSetsClient_error (SubscriptionID (config d))
              (authorizer d) with
      | Some err => (Returned (Some (azure_Errorf err)), z.2)
      | None =>
          match ExtractSubDomain deps fqdn zone with
          | inl err => (Returned (Some (azure_Errorf err)), z.2)
          | inr subDomain =>
              let w2 := logged z.2
                          (EvRecordSetsGet (new_client d)
                             (ResourceGroup (config d)) zone subDomain
                             RecordTypeTXT) (backend z.2) in
              let upsert rset :=
                match uniqRecords value rset with
                | Panic => (Panicked, w2)
                | Val uniq =>
                    let rec := build_RecordSet scope subDomain (TTL (config d))
                                 (mapiter uniq) in
                    let r := RecordSets_CreateOrUpdate (new_client d)
                               (ResourceGroup (config d)) zone subDomain
                               RecordTypeTXT rec (backend z.2) in
                    (Returned (azure_Errorf <$> r.1),
                     logged w2
                       (EvRecordSetsCreateOrUpdate (new_client d)
                          (ResourceGroup (config d)) zone subDomain
                          RecordTypeTXT rec) r.2)
                end in
              match RecordSets_Get (new_client d) (ResourceGroup (config d))
                      zone subDomain RecordTypeTXT (backend z.2) with
              | inl err =>
                  if read_error_is_fatal err
                  then (Returned (Some (azure_Errorf err)), w2)
                  else upsert zero_RecordSet
              | inr rset => upsert rset
              end
          end
      end
  end.
Proof.
  unfold Present. destruct (GetRecord deps domain keyAuth) as [fqdn value].
  cbn [fst snd]. unfold mbind, M_bind.
  destruct (getHostedZoneID deps d fqdn w) as [[err|zone] w1]; cbn [fst snd];
    [done|].
  destruct (NewRecordSetsClient_error _ _); [done|].
  destruct (ExtractSubDomain deps fqdn zone) as [err|subDomain]; [done|].
  unfold call_RecordSets_Get, Present_upsert, mbind, M_bind,
    call_RecordSets_CreateOrUpdate. cbv zeta.
  destruct (RecordSets_Get _ _ _ _ _ _) as [err|rset].
  - destruct (read_error_is_fatal err); [done|].
    destruct (uniqRecords value zero_RecordSet); [|done]. cbn [backend logged].
    by destruct (RecordSets_CreateOrUpdate _ _ _ _ _ _ _) as [[e|] b].
  - destruct (uniqRecords value rset); [|done]. cbn [backend logged].
    by destruct (RecordSets_CreateOrUpdate _ _ _ _ _ _ _) as [[e|] b].
Qed.

(** [CleanUp], bind by bind. *)
Lemma CleanUp_run (d : dnsProvider Cred) domain token keyAuth (w : World Cred B) :
  CleanUp deps d domain token keyAuth w =
  let fqdn := (GetRecord deps domain keyAuth).1 in
  let z := getHostedZoneID deps d fqdn w in
  match z.1 with
  | inl err => (Returned (Some (azure_Errorf err)), z.2)
  | inr zone =>
      match ExtractSubDomain deps fqdn zone with
      | inl err => (Returned (Some (azure_Errorf err)), z.2)
      | inr subDomain =>
          match NewRecordSetsClient_error (SubscriptionID (config d))
                  (authorizer d) with
          | Some err => (Returned (Some (azure_Errorf err)), z.2)
          | None =>
              let r := RecordSets_Delete (new_client d)
                         (ResourceGroup (config d)) zone subDomain
                         RecordTypeTXT (backend z.2) in
              (Returned (azure_Errorf <$> r.1),
               logged z.2
                 (EvRecordSetsDelete (new_client d) (ResourceGroup (config d))
                    zone subDomain RecordTypeTXT) r.2)
          end
      end
  end.
Proof.
  unfold CleanUp. destruct (GetRecord deps domain keyAuth) as [fqdn value].
  cbn [fst snd]. unfold mbind, M_bind.
  destruct (getHostedZoneID deps d fqdn w) as [[err|zone] w1]; cbn [fst snd];
    [done|].
  destruct (ExtractSubDomain deps fqdn zone) as [err|subDomain]; [done|].
  destruct (NewRecordSetsClient_error _ _); [done|].
  unfold call_RecordSets_Delete. cbv zeta.
  by destruct (RecordSets_Delete _ _ _ _ _ _) as [[e|] b].
Qed.
End Runs.

Section Effects.
Context {Cred B : Type} `{!ArmDNS Cred B}.
Variable deps : Deps.

(** X1. The calls of one [Present] are those of the zone resolution,
    followed by nothing, by the read of the record set, or by that read and
    then one upsert of the same record set: the read comes before the
    write, there is at most one write, and there is never a delete. *)
Theorem Present_calls_shape scope mapiter (d : dnsProvider Cred)
    domain token keyAuth (w : World Cred B) :
  ∃ zcalls rest,
    trace (Present deps scope mapiter d domain token keyAuth w).2
    = trace w ++ zcalls ++ rest ∧
    forallb is_zone_call zcalls = true ∧
    (rest = [] ∨
     ∃ zone subDomain,
       rest = [EvRecordSetsGet (new_client d) (ResourceGroup (config d)) zone
                 subDomain RecordTypeTXT] ∨
       ∃ rec,
         rest = [EvRecordSetsGet (new_client d) (ResourceGroup (config d)) zone
                   subDomain RecordTypeTXT;
                 EvRecordSetsCreateOrUpdate (new_client d)
                   (ResourceGroup (config d)) zone subDomain RecordTypeTXT rec]).
Proof.
  rewrite Present_run. cbv zeta.
  destruct (getHostedZoneID_world deps d (GetRecord deps domain keyAuth).1 w)
    as (zcalls & Hw & Hz & _).
  destruct (getHostedZoneID deps d _ w) as [z w1]. cbn [fst snd] in *.
  subst w1. exists zcalls. unfold logged. cbn [backend trace].
  repeat case_match; simplify_eq; cbn [snd trace].
  all: try (exists []; rewrite app_nil_r; by eauto).
  all: try (eexists [_]; rewrite <- app_assoc; by eauto 8).
  all: eexists [_; _]; rewrite <- !app_assoc; by eauto 10.
Qed.

(** X2. The calls of one [CleanUp] are those of the zone resolution,
    followed by nothing or by one delete of the whole TXT record set of the
    name: it never reads the record set and never writes one. *)
Theorem CleanUp_calls_shape (d : dnsProvider Cred) domain token keyAuth
    (w : World Cred B) :
  ∃ zcalls rest,
    trace (CleanUp deps d domain token keyAuth w).2 = trace w ++ zcalls ++ rest ∧
    forallb is_zone_call zcalls = true ∧
    (rest = [] ∨
     ∃ zone subDomain,
       rest = [EvRecordSetsDelete (new_client d) (ResourceGroup (config d)) zone
                 subDomain RecordTypeTXT]).
Proof.
  rewrite CleanUp_run. cbv zeta.
  destruct (getHostedZoneID_world deps d (GetRecord deps domain keyAuth).1 w)
    as (zcalls & Hw & Hz & _).
  destruct (getHostedZoneID deps d _ w) as [z w1]. cbn [fst snd] in *.
  subst w1. exists zcalls. unfold logged. cbn [backend trace].
  repeat case_match; simplify_eq; cbn [snd trace].
  all: try (exists []; rewrite app_nil_r; by eauto).
  all: eexists [_]; rewrite <- app_assoc; by eauto 8.
Qed.

(** X3. [Present] changes the backend through its upsert and through
    nothing else. Either no upsert is among its calls, the backend is left
    as it was and the outcome is not success; or its last call is the upsert
    of a record set that carries the relative name and the configured TTL,
    the backend is what that upsert makes of the backend found, and the
    outcome is the upsert's: success when it reports none, its error
    wrapped otherwise. *)
Theorem Present_backend_effect scope mapiter (d : dnsProvider Cred)
    domain token keyAuth (w : World Cred B) :
  ∃ calls,
    trace (Present deps scope mapiter d domain token keyAuth w).2
    = trace w ++ calls ∧
    ((existsb is_upsert calls = false ∧
      backend (Present deps scope mapiter d domain token keyAuth w).2
      = backend w ∧
      (Present deps scope mapiter d domain token keyAuth w).1 ≠ Returned None) ∨
     (∃ front zone subDomain rec,
        calls = front ++
          [EvRecordSetsCreateOrUpdate (new_client d) (ResourceGroup (config d))
             zone subDomain RecordTypeTXT rec] ∧
        existsb is_upsert front = false ∧
        Name rec = Some subDomain ∧
        TTL_ <$> Properties rec = Some (Some (TTL (config d))) ∧
        backend (Present deps scope mapiter d domain token keyAuth w).2
        = (RecordSets_CreateOrUpdate (new_client d) (ResourceGroup (config d))
             zone subDomain RecordTypeTXT rec (backend w)).2 ∧
        (Present deps scope mapiter d domain token keyAuth w).1
        = Returned (azure_Errorf <$>
            (RecordSets_CreateOrUpdate (new_client d) (ResourceGroup (config d))
               zone subDomain RecordTypeTXT rec (backend w)).1))).
Proof.
  rewrite Present_run. cbv zeta.
  destruct (getHostedZoneID_world deps d (GetRecord deps domain keyAuth).1 w)
    as (zcalls & Hw & Hz & _).
  destruct (getHostedZoneID deps d _ w) as [z w1]. cbn [fst snd] in *.
  subst w1. unfold logged. cbn [backend trace].
  assert (existsb is_upsert zcalls = false) as Hnone.
  { clear -Hz. induction zcalls as [|[] ? IH]; simpl in *; try done;
      by apply IH. }
  repeat case_match; simplify_eq; cbn [fst snd trace backend].
  all: try (exists zcalls; split; [done|]; left; by repeat split).
  all: try (eexists (zcalls ++ [_]); rewrite <- app_assoc; split; [done|];
            left; rewrite existsb_app, Hnone; by repeat split).
  all: eexists (zcalls ++ [_; _]); rewrite <- !app_assoc; split; [done|];
    right; eexists (zcalls ++ [_]), _, _, _; rewrite <- !app_assoc;
    split; [done|]; rewrite existsb_app, Hnone; by repeat split.
Qed.

(** X4. [CleanUp] changes the backend through its delete and through
    nothing else: when no delete is among its calls the backend is left as
    it was and the outcome is an error; otherwise the backend is what the
    delete of the whole record set makes of it. *)
Theorem CleanUp_backend_effect (d : dnsProvider Cred) domain token keyAuth
    (w : World Cred B) :
  ∃ calls,
    trace (CleanUp deps d domain token keyAuth w).2 = trace w ++ calls ∧
    ((existsb is_delete calls = false ∧
      backend (CleanUp deps d domain token keyAuth w).2 = backend w ∧
      ∃ err, (CleanUp deps d domain token keyAuth w).1
             = Returned (Some (azure_Errorf err))) ∨
     (∃ front zone subDomain,
        calls = front ++
          [EvRecordSetsDelete (new_client d) (ResourceGroup (config d)) zone
             subDomain RecordTypeTXT] ∧
        existsb is_delete front = false ∧
        backend (CleanUp deps d domain token keyAuth w).2
        = (RecordSets_Delete (new_client d) (ResourceGroup (config d)) zone
             subDomain RecordTypeTXT (backend w)).2)).
Proof.
  rewrite CleanUp_run. cbv zeta.
  destruct (getHostedZoneID_world deps d (GetRecord deps domain keyAuth).1 w)
    as (zcalls & Hw & Hz & _).
  destruct (getHostedZoneID deps d _ w) as [z w1]. cbn [fst snd] in *.
  subst w1. unfold logged. cbn [backend trace].
  assert (existsb is_delete zcalls = false) as Hnone.
  { clear -Hz. induction zcalls as [|[] ? IH]; simpl in *; try done;
      by apply IH. }
  repeat case_match; simplify_eq; cbn [fst snd trace backend].
  all: try (exists zcalls; split; [done|]; left; by eauto).
  all: eexists (zcalls ++ [_]); rewrite <- !app_assoc; split; [done|];
    right; eexists zcalls, _, _; by repeat split.
Qed.

(** X5. Every backend call of [Present] and of [CleanUp] is made with the
    provider's subscription and credential and names its resource group,
    and every record-set call is for the TXT type. *)
Theorem calls_scoped_to_provider scope mapiter (d : dnsProvider Cred)
    domain token keyAuth (w : World Cred B) :
  (∃ calls,
     trace (Present deps scope mapiter d domain token keyAuth w).2
     = trace w ++ calls ∧ Forall (scoped_to d) calls) ∧
  (∃ calls,
     trace (CleanUp deps d domain token keyAuth w).2 = trace w ++ calls ∧
     Forall (scoped_to d) calls).
Proof.
  split.
  - rewrite Present_run. cbv zeta.
    destruct (getHostedZoneID_world deps d (GetRecord deps domain keyAuth).1 w)
      as (zcalls & Hw & _ & Hsc).
    destruct (getHostedZoneID deps d _ w) as [z w1]. cbn [fst snd] in *.
    subst w1. unfold logged. cbn [backend trace].
    repeat case_match; simplify_eq; cbn [snd trace].
    all: try (exists zcalls; by split).
    all: try (eexists (zcalls ++ [_]); rewrite <- app_assoc; split; [done|];
              apply Forall_app; split; [done|];
              repeat constructor; simpl; intros; by simplify_eq).
    all: eexists (zcalls ++ [_; _]); rewrite <- !app_assoc; split; [done|];
      apply Forall_app; split; [done|];
      repeat constructor; simpl; intros; by simplify_eq.
  - rewrite CleanUp_run. cbv zeta.
    destruct (getHostedZoneID_world deps d (GetRecord deps domain keyAuth).1 w)
      as (zcalls & Hw & _ & Hsc).
    destruct (getHostedZoneID deps d _ w) as [z w1]. cbn [fst snd] in *.
    subst w1. unfold logged. cbn [backend trace].
    repeat case_match; simplify_eq; cbn [snd trace].
    all: try (exists zcalls; by split).
    all: eexists (zcalls ++ [_]); rewrite <- app_assoc; split; [done|];
      apply Forall_app; split; [done|];
      repeat constructor; simpl; intros; by simplify_eq.
Qed.
End Effects.

(** ** Zone resolution by discovery *)

Section Discovery.
Context {Cred B : Type} `{!ArmDNS Cred B}.
Variable deps : Deps.

(** X6. Without an override, a failure of the zone resolution is returned
    as it is and ends the resolution: when the discovery fails, or the
    zones client cannot be made, only the discovery has been called and the
    backend has not; when the backend's get-zone fails, with a not-found
    response or any other error, that error is the result. *)
Theorem getHostedZoneID_failures (d : dnsProvider Cred) fqdn (w : World Cred B) :
  GetOrFile deps EnvZoneName = "" →
  (∀ err, FindZoneByFqdn deps fqdn = inl err →
     getHostedZoneID deps d fqdn w
     = (inl err, logged w (EvFindZoneByFqdn fqdn) (backend w))) ∧
  (∀ authZone err,
     FindZoneByFqdn deps fqdn = inr authZone →
     NewZonesClient_error (SubscriptionID (config d)) (authorizer d) = Some err →
     getHostedZoneID deps d fqdn w
     = (inl err, logged w (EvFindZoneByFqdn fqdn) (backend w))) ∧
  (∀ authZone err,
     FindZoneByFqdn deps fqdn = inr authZone →
     NewZonesClient_error (SubscriptionID (config d)) (authorizer d) = None →
     Zones_Get (new_client d) (ResourceGroup (config d)) (UnFqdn authZone)
       (backend w) = inl err →
     (getHostedZoneID deps d fqdn w).1 = inl err).
Proof.
  intros Hnone. split; [|split].
  - intros err Hfind. unfold getHostedZoneID. rewrite Hnone. cbn [String.eqb negb].
    unfold mbind, M_bind, call_FindZoneByFqdn. by rewrite Hfind.
  - intros authZone err Hfind Hclient. unfold getHostedZoneID. rewrite Hnone.
    cbn [String.eqb negb]. unfold mbind, M_bind, call_FindZoneByFqdn.
    by rewrite Hfind, Hclient.
  - intros authZone err Hfind Hclient Hget.
    rewrite (getHostedZoneID_discovery deps d fqdn authZone w Hnone Hfind Hclient).
    by rewrite Hget.
Qed.

(** X7. On the discovery path the zone returned is the name in the
    backend's answer, taken as it is: the empty string when the answer
    carries no name, and otherwise the name unchanged, a trailing dot
    included. *)
Theorem getHostedZoneID_returns_backend_name (d : dnsProvider Cred)
    fqdn authZone zone (w : World Cred B) :
  GetOrFile deps EnvZoneName = "" →
  FindZoneByFqdn deps fqdn = inr authZone →
  NewZonesClient_error (SubscriptionID (config d)) (authorizer d) = None →
  Zones_Get (new_client d) (ResourceGroup (config d)) (UnFqdn authZone)
    (backend w) = inr zone →
  (getHostedZoneID deps d fqdn w).1
  = inr match ZoneName zone with
        | Some name => name
        | None => ""
        end.
Proof.
  intros Hnone Hfind Hclient Hget.
  rewrite (getHostedZoneID_discovery deps d fqdn authZone w Hnone Hfind Hclient).
  rewrite Hget. by destruct (ZoneName zone).
Qed.

(** X8. A zone the backend does not have is fatal for both methods: the
    not-found answer of the get-zone call is not recovered the way the
    not-found answer of the record-set read is. [Present] and [CleanUp]
    return the error wrapped, after the discovery and the get-zone call and
    no other call, and the backend is left as it was. *)
Theorem zone_lookup_failure_is_fatal scope mapiter (d : dnsProvider Cred)
    domain token keyAuth authZone err (w : World Cred B) :
  GetOrFile deps EnvZoneName = "" →
  FindZoneByFqdn deps (GetRecord deps domain keyAuth).1 = inr authZone →
  NewZonesClient_error (SubscriptionID (config d)) (authorizer d) = None →
  Zones_Get (new_client d) (ResourceGroup (config d)) (UnFqdn authZone)
    (backend w) = inl err →
  let w' := {| backend := backend w;
               trace := trace w ++
                 [EvFindZoneByFqdn (GetRecord deps domain keyAuth).1;
                  EvZonesGet (new_client d) (ResourceGroup (config d))
                    (UnFqdn authZone)] |} in
  Present deps scope mapiter d domain token keyAuth w
  = (Returned (Some (azure_Errorf err)), w') ∧
  CleanUp deps d domain token keyAuth w
  = (Returned (Some (azure_Errorf err)), w').
Proof.
  intros Hnone Hfind Hclient Hget w'.
  rewrite Present_run, CleanUp_run. cbv zeta.
  rewrite (getHostedZoneID_discovery deps d _ authZone w Hnone Hfind Hclient).
  rewrite Hget. done.
Qed.
End Discovery.

Lemma getHostedZoneID_failures_witness :
  (getHostedZoneID (Example.deps "") Example.d "_acme-challenge.example.com."
     (Example.world {| mem_zones := ∅; mem_records := ∅ |})).1
  = inl not_found.
Proof.
  apply (proj2 (proj2 (getHostedZoneID_failures (Example.deps "") Example.d
                         "_acme-challenge.example.com."
                         (Example.world {| mem_zones := ∅; mem_records := ∅ |})
                         eq_refl))
           "example.com."); reflexivity.
Defined.

Lemma getHostedZoneID_returns_backend_name_witness :
  (getHostedZoneID (Example.deps "") Example.d "_acme-challenge.example.com."
     (Example.world
        {| mem_zones := {[ ("rg", "example.com") := {| ZoneName := None |} ]};
           mem_records := ∅ |})).1
  = inr "".
Proof.
  apply (getHostedZoneID_returns_backend_name (Example.deps "") Example.d
           "_acme-challenge.example.com." "example.com."
           {| ZoneName := None |}); reflexivity.
Defined.

Lemma zone_lookup_failure_is_fatal_witness :
  (Present (Example.deps "") PerIteration Example.forward Example.d
     "example.com" "tok" "abc123"
     (Example.world {| mem_zones := ∅; mem_records := ∅ |})).1
  = Returned (Some (azure_Errorf not_found)) ∧
  (CleanUp (Example.deps "") Example.d "example.com" "tok" "abc123"
     (Example.world {| mem_zones := ∅; mem_records := ∅ |})).1
  = Returned (Some (azure_Errorf not_found)).
Proof.
  pose proof (zone_lookup_failure_is_fatal (Example.deps "") PerIteration
                Example.forward Example.d "example.com" "tok" "abc123"
                "example.com." not_found
                (Example.world {| mem_zones := ∅; mem_records := ∅ |})
                eq_refl eq_refl eq_refl eq_refl) as [-> ->].
  split; reflexivity.
Defined.

(** ** The errors returned *)

Section Causes.
Context {Cred B : Type} `{!ArmDNS Cred B}.
Variable deps : Deps.

(** X9. An error returned by [Present] or [CleanUp] wraps its cause with
    [%w]: its text is ["azure: "] followed by the text of the cause, and
    [errors.As] finds in it the response error of the cause, so that the
    caller can still read the status the backend answered. *)
Theorem returned_error_keeps_cause scope mapiter (d : dnsProvider Cred)
    domain token keyAuth (w : World Cred B) err :
  (Present deps scope mapiter d domain token keyAuth w).1 = Returned (Some err) ∨
  (CleanUp deps d domain token keyAuth w).1 = Returned (Some err) →
  ∃ cause,
    err = azure_Errorf cause ∧
    Error err = "azure: " +:+ Error cause ∧
    errors_As_ResponseError err = errors_As_ResponseError cause.
Proof.
  intros [Herr|Herr].
  - apply Present_error_wrapped in Herr as [cause ->]. by exists cause.
  - apply CleanUp_error_wrapped in Herr as [cause ->]. by exists cause.
Qed.
End Causes.

Lemma returned_error_keeps_cause_witness :
  ∃ cause,
    azure_Errorf not_found = azure_Errorf cause ∧
    Error (azure_Errorf not_found) = "azure: " +:+ Error cause ∧
    errors_As_ResponseError (azure_Errorf not_found)
    = errors_As_ResponseError cause.
Proof.
  apply (returned_error_keeps_cause (Example.deps "") PerIteration
           Example.forward Example.d "example.com" "tok" "abc123"
           (Example.world {| mem_zones := ∅; mem_records := ∅ |})).
  left. reflexivity.
Defined.

(** ** Construction *)

Section Construction.
Context {Cred : Type}.
Variable deps : Deps.
Variable NewEnvironmentCredential :
  EnvironmentCredentialOptions → error + Cred.

(** What a returned provider is made of. *)
Lemma NewDNSProviderConfig_provider (cfg : Config) (p : DNSProvider Cred) :
  NewDNSProviderConfig NewEnvironmentCredential (Some cfg) = inr p →
  SubscriptionID cfg ≠ "" ∧ ResourceGroup cfg ≠ "" ∧
  ∃ cred, NewEnvironmentCredential china = inr cred ∧
          p = {| provider := {| config := with_default_HTTPClient cfg;
                                authorizer := cred |} |}.
Proof.
  unfold NewDNSProviderConfig, china, with_default_HTTPClient, set_HTTPClient.
  destruct cfg as [cid cs tid sub rg pz me cc pt pi ttl [h|]]; cbn.
  all: destruct (String.eqb_spec sub ""), (String.eqb_spec rg "");
    destruct (NewEnvironmentCredential _) as [err|cred]; naive_solver.
Qed.

(** X10. [NewDNSProviderConfig] returns a provider exactly when the
    configuration has a subscription and a resource group and the
    credential can be made; the provider then holds that credential and the
    configuration it was given, with the default HTTP client put in when
    none was set and every other field untouched. *)
Theorem NewDNSProviderConfig_success (cfg : Config) (p : DNSProvider Cred) :
  NewDNSProviderConfig NewEnvironmentCredential (Some cfg) = inr p ↔
  SubscriptionID cfg ≠ "" ∧ ResourceGroup cfg ≠ "" ∧
  ∃ cred, NewEnvironmentCredential china = inr cred ∧
          p = {| provider := {| config := with_default_HTTPClient cfg;
                                authorizer := cred |} |}.
Proof.
  split; [apply NewDNSProviderConfig_provider|].
  intros (Hsub & Hrg & cred & Hcred & ->).
  unfold NewDNSProviderConfig, with_default_HTTPClient, set_HTTPClient.
  unfold china in Hcred.
  destruct cfg as [cid cs tid sub rg pz me cc pt pi ttl [h|]]; cbn in *.
  all: destruct (String.eqb_spec sub ""), (String.eqb_spec rg ""); try done;
    by rewrite Hcred.
Qed.

(** X11. The checks of [NewDNSProviderConfig] come in a fixed order and
    before the credential is made: a nil configuration, then a missing
    subscription, then a missing resource group, each with its own message,
    whatever the credential would have answered. *)
Theorem NewDNSProviderConfig_validation (cfg : Config) :
  NewDNSProviderConfig NewEnvironmentCredential None
  = inl (ErrorString "azure: the configuration of the DNS provider is nil") ∧
  (SubscriptionID cfg = "" →
   NewDNSProviderConfig NewEnvironmentCredential (Some cfg)
   = inl (ErrorString "azure: SubscriptionID is missing")) ∧
  (SubscriptionID cfg ≠ "" → ResourceGroup cfg = "" →
   NewDNSProviderConfig NewEnvironmentCredential (Some cfg)
   = inl (ErrorString "azure: ResourceGroup is missing")).
Proof.
  split; [done|]. unfold NewDNSProviderConfig, set_HTTPClient.
  destruct cfg as [cid cs tid sub rg pz me cc pt pi ttl [h|]]; cbn.
  all: destruct (String.eqb_spec sub ""), (String.eqb_spec rg ""); naive_solver.
Qed.

(** X12. The timeout and the interval of a provider are those of the
    configuration it was made from: the construction does not alter them. *)
Theorem Timeout_of_NewDNSProviderConfig (cfg : Config) (p : DNSProvider Cred) :
  NewDNSProviderConfig NewEnvironmentCredential (Some cfg) = inr p →
  DNSProvider_Timeout p = (PropagationTimeout cfg, PollingInterval cfg).
Proof.
  unfold NewDNSProviderConfig, DNSProvider_Timeout, Timeout, set_HTTPClient.
  repeat case_match; intros; simplify_eq; done.
Qed.

(** X13. An environment name that is set and is none of [china], [german],
    [public], [usgovernment] makes [NewDNSProvider] fail with
    ["azure: unknown environment <name>"], before the subscription, the
    resource group or the credential are looked at. *)
Theorem NewDNSProvider_unknown_environment :
  GetOrFile deps EnvEnvironment ≠ "" →
  GetOrFile deps EnvEnvironment ∉ known_environments →
  NewDNSProvider deps NewEnvironmentCredential
  = inl (ErrorString ("azure: unknown environment " +:+
                      GetOrFile deps EnvEnvironment)).
Proof.
  intros Hset Hunknown. unfold NewDNSProvider. cbv zeta.
  unfold known_environments in Hunknown.
  destruct (String.eqb_spec (GetOrFile deps EnvEnvironment) ""); [done|].
  cbn [negb].
  destruct (String.eqb_spec (GetOrFile deps EnvEnvironment) "china") as [Heq|?];
    [exfalso; apply Hunknown; rewrite Heq; set_solver|].
  destruct (String.eqb_spec (GetOrFile deps EnvEnvironment) "german") as [Heq|?];
    [exfalso; apply Hunknown; rewrite Heq; set_solver|].
  destruct (String.eqb_spec (GetOrFile deps EnvEnvironment) "public") as [Heq|?];
    [exfalso; apply Hunknown; rewrite Heq; set_solver|].
  destruct (String.eqb_spec (GetOrFile deps EnvEnvironment) "usgovernment")
    as [Heq|?]; [exfalso; apply Hunknown; rewrite Heq; set_solver|].
  done.
Qed.

(** X14. A provider that [NewDNSProvider] returns is configured from the
    environment: its subscription and its resource group are the variables
    read, and they are set; the TTL is read with 60 as default, the HTTP
    client is the default one, and the timeout accessor returns the timeout
    and the interval read with two minutes and two seconds as defaults. *)
Theorem NewDNSProvider_configuration (p : DNSProvider Cred) :
  NewDNSProvider deps NewEnvironmentCredential = inr p →
  SubscriptionID (config (provider p)) = GetOrFile deps EnvSubscriptionID ∧
  SubscriptionID (config (provider p)) ≠ "" ∧
  ResourceGroup (config (provider p)) = GetOrFile deps EnvResourceGroup ∧
  ResourceGroup (config (provider p)) ≠ "" ∧
  TTL (config (provider p)) = GetOrDefaultInt deps EnvTTL 60 ∧
  HTTPClient (config (provider p)) = Some DefaultClient ∧
  DNSProvider_Timeout p
  = (GetOrDefaultSecond deps EnvPropagationTimeout (2 * time_Minute),
     GetOrDefaultSecond deps EnvPollingInterval (2 * time_Second)).
Proof.
  unfold NewDNSProvider. cbv zeta.
  destruct (if negb _ then _ else _) as [err|environment]; [done|].
  intros Hp. apply NewDNSProviderConfig_provider in Hp
    as (Hsub & Hrg & cred & _ & ->).
  cbn in *. by repeat split.
Qed.
End Construction.

Lemma Timeout_of_NewDNSProviderConfig_witness :
  DNSProvider_Timeout {| provider := Example.d |}
  = (PropagationTimeout Example.cfg, PollingInterval Example.cfg).
Proof.
  apply (Timeout_of_NewDNSProviderConfig (Cred := EnvironmentCredentialOptions)
           inr Example.cfg).
  reflexivity.
Defined.

Lemma NewDNSProvider_unknown_environment_witness :
  NewDNSProvider (Cred := EnvironmentCredentialOptions)
    (Env.deps [("AZURE_ENVIRONMENT", "mars")]) inr
  = inl (ErrorString "azure: unknown environment mars").
Proof.
  apply (NewDNSProvider_unknown_environment
           (Cred := EnvironmentCredentialOptions)
           (Env.deps [("AZURE_ENVIRONMENT", "mars")]) inr).
  - discriminate.
  - vm_compute. intros Hin. repeat (inversion Hin as [|? ? ? Hin']; subst;
      clear Hin; rename Hin' into Hin).
Defined.

Lemma NewDNSProvider_configuration_witness :
  ∃ p, NewDNSProvider (Cred := EnvironmentCredentialOptions)
         (Env.deps [("AZURE_ENVIRONMENT", "german");
                    ("AZURE_SUBSCRIPTION_ID", "sub");
                    ("AZURE_RESOURCE_GROUP", "rg")]) inr = inr p ∧
       SubscriptionID (config (provider p)) = "sub" ∧
       ResourceGroup (config (provider p)) = "rg" ∧
       CloudConfig (config (provider p))
       = CustomCloud "https://login.microsoftonline.de/" ∧
       DNSProvider_Timeout p = (120000000000, 2000000000).
Proof.
  eexists. split; [reflexivity|].
  pose proof (NewDNSProvider_configuration
                (Cred := EnvironmentCredentialOptions)
                (Env.deps [("AZURE_ENVIRONMENT", "german");
                           ("AZURE_SUBSCRIPTION_ID", "sub");
                           ("AZURE_RESOURCE_GROUP", "rg")]) inr _ eq_refl)
    as (Hsub & _ & Hrg & _ & _ & _ & Htimeout).
  split; [exact Hsub|]. split; [exact Hrg|]. split; [reflexivity|].
  exact Htimeout.
Defined.

(** ** The records rebuilt and the first write *)

(** X15. The loop that rebuilds the TXT records makes one record per key
    of the map. With a variable per iteration the records hold the keys, in
    the order ranged over; with one variable for the whole loop they all
    hold the key ranged over last. *)
Theorem build_txtRecords_by_scope scope keys :
  length (build_txtRecords scope keys) = length keys ∧
  build_txtRecords PerIteration keys = map single_TxtRecord keys ∧
  build_txtRecords PerLoop keys
  = replicate (length keys) (single_TxtRecord (List.last keys "")).
Proof.
  assert (build_txtRecords PerLoop keys
          = replicate (length keys) (single_TxtRecord (List.last keys "")))
    as HL.
  { destruct keys as [|k0 keys]; [done|].
    by rewrite build_txtRecords_PerLoop, last_cons_default. }
  split; [|split; [apply build_txtRecords_PerIteration | done]].
  destruct scope.
  - by rewrite HL, length_replicate.
  - by rewrite build_txtRecords_PerIteration, length_map.
Qed.

Section FirstWrite.
Context {Cred B : Type} `{!ArmDNS Cred B}.
Variable deps : Deps.

(** X16. When the name has no record set (the read is answered not-found)
    or a record set without entries, [Present] upserts a record set that
    carries the relative name, the configured TTL and exactly one TXT
    record holding the challenge value, whatever the scope of the loop
    variable, and returns the outcome of that upsert. *)
Theorem Present_first_write scope mapiter (d : dnsProvider Cred)
    domain token keyAuth zone subDomain (w : World Cred B) :
  ranges_over mapiter →
  (getHostedZoneID deps d (GetRecord deps domain keyAuth).1 w).1 = inr zone →
  NewRecordSetsClient_error (SubscriptionID (config d)) (authorizer d) = None →
  ExtractSubDomain deps (GetRecord deps domain keyAuth).1 zone = inr subDomain →
  match RecordSets_Get (new_client d) (ResourceGroup (config d)) zone subDomain
          RecordTypeTXT (backend w) with
  | inl err => errors_As_ResponseError err = Some http_StatusNotFound
  | inr rset => entries rset = []
  end →
  let rec :=
    {| Name := Some subDomain;
       Properties :=
         Some {| TTL_ := Some (TTL (config d));
                 TxtRecords :=
                   [Some {| Value := [Some (GetRecord deps domain keyAuth).2] |}]
              |} |} in
  let write := RecordSets_CreateOrUpdate (new_client d)
                 (ResourceGroup (config d)) zone subDomain RecordTypeTXT rec
                 (backend w) in
  (Present deps scope mapiter d domain token keyAuth w).1
  = Returned (azure_Errorf <$> write.1) ∧
  backend (Present deps scope mapiter d domain token keyAuth w).2 = write.2 ∧
  last (trace (Present deps scope mapiter d domain token keyAuth w).2)
  = Some (EvRecordSetsCreateOrUpdate (new_client d) (ResourceGroup (config d))
            zone subDomain RecordTypeTXT rec).
Proof.
  intros Hr Hzone Hclient Hsub Hread rec write.
  rewrite Present_run. cbv zeta.
  destruct (getHostedZoneID_world deps d (GetRecord deps domain keyAuth).1 w)
    as (zcalls & Hw & _ & _).
  destruct (getHostedZoneID deps d _ w) as [z w1]. cbn [fst snd] in *.
  subst w1 z. rewrite Hclient, Hsub. cbn [backend].
  assert (∀ rset, entries rset = [] →
            build_RecordSet scope subDomain (TTL (config d))
              (mapiter match uniqRecords (GetRecord deps domain keyAuth).2 rset with
                       | Val uniq => uniq
                       | Panic => ∅
                       end) = rec) as Hrec.
  { intros rset Hempty. rewrite (uniqRecords_no_entries _ _ Hempty).
    unfold build_RecordSet. by rewrite build_txtRecords_singleton. }
  destruct (RecordSets_Get _ _ _ _ _ _) as [err|rset].
  - apply read_error_is_fatal_not_found in Hread. rewrite Hread.
    specialize (Hrec zero_RecordSet eq_refl).
    rewrite (uniqRecords_no_entries _ zero_RecordSet eq_refl) in Hrec |- *.
    rewrite Hrec. fold write. unfold logged. cbn [fst snd backend trace].
    by rewrite last_snoc.
  - specialize (Hrec rset Hread).
    rewrite (uniqRecords_no_entries _ rset Hread) in Hrec |- *.
    rewrite Hrec. fold write. unfold logged. cbn [fst snd backend trace].
    by rewrite last_snoc.
Qed.

(** X17. [Present] panics in one situation only: the zone, the client and
    the relative name were obtained, the read succeeded, and the record set
    read has a nil entry. Nothing has been written then: the backend is as
    it was found. *)
Theorem Present_panics_on_nil_entry_only scope mapiter (d : dnsProvider Cred)
    domain token keyAuth (w : World Cred B) :
  ((Present deps scope mapiter d domain token keyAuth w).1 = Panicked ↔
   ∃ zone subDomain rset,
     (getHostedZoneID deps d (GetRecord deps domain keyAuth).1 w).1 = inr zone ∧
     NewRecordSetsClient_error (SubscriptionID (config d)) (authorizer d)
     = None ∧
     ExtractSubDomain deps (GetRecord deps domain keyAuth).1 zone
     = inr subDomain ∧
     RecordSets_Get (new_client d) (ResourceGroup (config d)) zone subDomain
       RecordTypeTXT (backend w) = inr rset ∧
     has_nil_entry (entries rset) = true) ∧
  ((Present deps scope mapiter d domain token keyAuth w).1 = Panicked →
   backend (Present deps scope mapiter d domain token keyAuth w).2 = backend w).
Proof.
  rewrite Present_run. cbv zeta.
  destruct (getHostedZoneID_world deps d (GetRecord deps domain keyAuth).1 w)
    as (zcalls & Hw & _ & _).
  destruct (getHostedZoneID deps d _ w) as [z w1]. cbn [fst snd] in *.
  subst w1. cbn [backend].
  destruct z as [err|zone].
  { split; [split; [done|]|done].
    intros (? & ? & ? & ? & ?). congruence. }
  destruct (NewRecordSetsClient_error _ _) as [err|] eqn:Hclient.
  { split; [split; [done|]|done].
    intros (? & ? & ? & ? & ? & ?). congruence. }
  destruct (ExtractSubDomain deps _ zone) as [err|subDomain] eqn:Hsub.
  { split; [split; [done|]|done].
    intros (? & ? & ? & ? & ? & ? & ?). simplify_eq; congruence. }
  destruct (RecordSets_Get _ _ _ _ _ _) as [err|rset] eqn:Hget.
  - destruct (read_error_is_fatal err).
    + split; [split; [done|]|done].
      intros (? & ? & ? & ? & ? & ? & ? & ?). simplify_eq; congruence.
    + rewrite (uniqRecords_no_entries _ zero_RecordSet eq_refl).
      split; [split; [done|]|done].
      intros (? & ? & ? & ? & ? & ? & ? & ?). simplify_eq; congruence.
  - rewrite uniqRecords_spec.
    destruct (Properties rset) as [props|] eqn:Hprops; cbn [fst snd].
    + destruct (has_nil_entry (TxtRecords props)) eqn:Hnil; cbn [fst snd].
      * split; [|done]. split; [|done]. intros _.
        exists zone, subDomain, rset. unfold entries. by rewrite Hprops, Hnil.
      * split; [|done]. split; [done|].
        intros (z' & s' & rset' & Hz' & _ & Hs' & Hg' & Hn).
        assert (z' = zone) as -> by congruence.
        assert (s' = subDomain) as -> by congruence.
        assert (rset' = rset) as -> by congruence.
        unfold entries in Hn. rewrite Hprops in Hn. congruence.
    + split; [|done]. split; [done|].
      intros (z' & s' & rset' & Hz' & _ & Hs' & Hg' & Hn).
      assert (z' = zone) as -> by congruence.
      assert (s' = subDomain) as -> by congruence.
      assert (rset' = rset) as -> by congruence.
      unfold entries in Hn. by rewrite Hprops in Hn.
Qed.
End FirstWrite.

Lemma Present_first_write_witness :
  (Present (Example.deps "") PerLoop Example.backward Example.d
     "example.com" "tok" "abc123" (Example.world (Example.store None))).1
  = Returned None ∧
  backend (Present (Example.deps "") PerLoop Example.backward Example.d
     "example.com" "tok" "abc123" (Example.world (Example.store None))).2
  = Example.store (Some [single_TxtRecord "abc123"]).
Proof.
  pose proof (Present_first_write (Example.deps "") PerLoop Example.backward
                Example.d "example.com" "tok" "abc123" "example.com"
                "_acme-challenge" (Example.world (Example.store None))
                ranges_over_backward eq_refl eq_refl eq_refl eq_refl)
    as (Hout & Hback & _).
  split; [exact Hout | exact Hback].
Defined.

(** ** The two methods on the reference store *)

Section StoreRuns.
Context {Cred : Type}.
Variable deps : Deps.

Lemma CleanUp_store (d : dnsProvider Cred) domain token keyAuth
    (w : World Cred MemStore) :
  ((CleanUp deps d domain token keyAuth w).1,
   backend (CleanUp deps d domain token keyAuth w).2)
  = CleanUp_on_store deps d (GetRecord deps domain keyAuth).1 (backend w).
Proof.
  rewrite CleanUp_run. cbv zeta. unfold CleanUp_on_store.
  destruct (getHostedZoneID_on_store deps d (GetRecord deps domain keyAuth).1 w)
    as [Hz Hb].
  destruct (getHostedZoneID deps d _ w) as [z w1]. cbn [fst snd] in *.
  rewrite <- Hz, <- Hb. destruct z as [err|zone]; [done|].
  destruct (ExtractSubDomain deps _ zone) as [err|subDomain]; [done|].
  done.
Qed.

Lemma resolve_zone_delete (d : dnsProvider Cred) fqdn rg zone sub b :
  resolve_zone deps d fqdn (mem_delete rg zone sub b) = resolve_zone deps d fqdn b.
Proof.
  unfold resolve_zone, getHostedZoneID, mbind, M_bind, mret, M_ret,
    call_FindZoneByFqdn, call_Zones_Get, logged.
  cbn [backend Zones_Get MemStore_ArmDNS NewZonesClient_error].
  unfold mem_get_zone, mem_delete. cbn [mem_zones].
  repeat case_match; simplify_eq; simpl in *; congruence.
Qed.


(** X19. A [CleanUp] that succeeds on the store has removed the record set
    of the name altogether, whatever values it held and whoever put them
    there: a read of the name is answered not-found afterwards. *)
Theorem CleanUp_removes_record_set (d : dnsProvider Cred) domain token keyAuth
    (w : World Cred MemStore) :
  (CleanUp deps d domain token keyAuth w).1 = Returned None →
  ∃ zone subDomain,
    resolve_zone deps d (GetRecord deps domain keyAuth).1 (backend w) = inr zone ∧
    ExtractSubDomain deps (GetRecord deps domain keyAuth).1 zone = inr subDomain ∧
    mem_records (backend (CleanUp deps d domain token keyAuth w).2)
    = delete (ResourceGroup (config d), zone, subDomain)
        (mem_records (backend w)) ∧
    mem_get (ResourceGroup (config d)) zone subDomain
      (backend (CleanUp deps d domain token keyAuth w).2) = inl not_found.
Proof.
  intros Hok. pose proof (CleanUp_store d domain token keyAuth w) as HC.
  rewrite Hok in HC. unfold CleanUp_on_store in HC.
  destruct (resolve_zone deps d _ (backend w)) as [err|zone] eqn:Hz; [done|].
  destruct (ExtractSubDomain deps _ zone) as [err|subDomain] eqn:Hs; [done|].
  injection HC as ->. exists zone, subDomain. split; [done|]. split; [done|].
  split; [done|]. unfold mem_get, mem_delete. cbn [mem_records].
  by rewrite lookup_delete_eq.
Qed.

(** X20. After a [CleanUp] that succeeds, a [Present] for the same record
    name succeeds and leaves under the name a record set with the relative
    name, the configured TTL and the one challenge value, whatever the
    scope of the loop variable. *)
Theorem CleanUp_then_Present scope mapiter (d : dnsProvider Cred)
    domain token keyAuth domain' keyAuth' (w : World Cred MemStore) :
  ranges_over mapiter →
  (GetRecord deps domain' keyAuth').1 = (GetRecord deps domain keyAuth).1 →
  (CleanUp deps d domain token keyAuth w).1 = Returned None →
  let w1 := (CleanUp deps d domain token keyAuth w).2 in
  (Present deps scope mapiter d domain' token keyAuth' w1).1 = Returned None ∧
  ∃ zone subDomain,
    resolve_zone deps d (GetRecord deps domain keyAuth).1 (backend w) = inr zone ∧
    ExtractSubDomain deps (GetRecord deps domain keyAuth).1 zone = inr subDomain ∧
    mem_records
      (backend (Present deps scope mapiter d domain' token keyAuth' w1).2)
      !! (ResourceGroup (config d), zone, subDomain)
    = Some {| Name := Some subDomain;
              Properties :=
                Some {| TTL_ := Some (TTL (config d));
                        TxtRecords :=
                          [single_TxtRecord (GetRecord deps domain' keyAuth').2]
                     |} |}.
Proof.
  intros Hr Hfqdn Hok w1.
  pose proof (CleanUp_store d domain token keyAuth w) as HC.
  rewrite Hok in HC. fold w1 in HC. unfold CleanUp_on_store in HC.
  pose proof (Present_store deps scope mapiter d domain' token keyAuth' w1) as HP.
  rewrite Hfqdn in HP. unfold Present_on_store in HP.
  destruct (resolve_zone deps d _ (backend w)) as [err|zone] eqn:Hz; [done|].
  destruct (ExtractSubDomain deps _ zone) as [err|subDomain] eqn:Hs; [done|].
  injection HC as HC. rewrite HC in HP.
  rewrite resolve_zone_delete, Hz, Hs in HP.
  rewrite (uniqRecords_no_entries _ (current_rset _ _ _ _)) in HP.
  2: { unfold current_rset, mem_get, mem_delete. cbn [mem_records].
       by rewrite lookup_delete_eq. }
  injection HP as HP1 HP2. split; [done|].
  exists zone, subDomain. split; [done|]. split; [done|].
  rewrite HP2. unfold mem_put. cbn [mem_records]. rewrite lookup_insert_eq.
  unfold build_RecordSet. by rewrite build_txtRecords_singleton.
Qed.

(** X21. After a [Present] that succeeds, a [CleanUp] for the same record
    name succeeds and leaves no record set under the name: what [CleanUp]
    removes is the whole record set, the values written by that [Present]
    and the ones that were there before alike. *)
Theorem Present_then_CleanUp scope mapiter (d : dnsProvider Cred)
    domain token keyAuth domain' keyAuth' (w : World Cred MemStore) :
  (GetRecord deps domain' keyAuth').1 = (GetRecord deps domain keyAuth).1 →
  (Present deps scope mapiter d domain token keyAuth w).1 = Returned None →
  let w1 := (Present deps scope mapiter d domain token keyAuth w).2 in
  (CleanUp deps d domain' token keyAuth' w1).1 = Returned None ∧
  ∃ zone subDomain,
    resolve_zone deps d (GetRecord deps domain keyAuth).1 (backend w) = inr zone ∧
    ExtractSubDomain deps (GetRecord deps domain keyAuth).1 zone = inr subDomain ∧
    is_Some (mem_records (backend w1)
               !! (ResourceGroup (config d), zone, subDomain)) ∧
    mem_records (backend (CleanUp deps d domain' token keyAuth' w1).2)
      !! (ResourceGroup (config d), zone, subDomain) = None.
Proof.
  intros Hfqdn Hok w1.
  pose proof (Present_store deps scope mapiter d domain token keyAuth w) as HP.
  rewrite Hok in HP. fold w1 in HP. unfold Present_on_store in HP.
  pose proof (CleanUp_store d domain' token keyAuth' w1) as HC.
  rewrite Hfqdn in HC. unfold CleanUp_on_store in HC.
  destruct (resolve_zone deps d _ (backend w)) as [err|zone] eqn:Hz; [done|].
  destruct (ExtractSubDomain deps _ zone) as [err|subDomain] eqn:Hs; [done|].
  destruct (uniqRecords _ _) as [uniq|]; [|done].
  injection HP as HP. rewrite HP in HC |- *.
  rewrite resolve_zone_put, Hz, Hs in HC. injection HC as HC1 HC2.
  split; [done|]. exists zone, subDomain. split; [done|]. split; [done|].
  rewrite HC2. unfold mem_put, mem_delete. cbn [mem_records].
  by rewrite lookup_insert_eq, lookup_delete_eq.
Qed.
End StoreRuns.

Lemma CleanUp_removes_record_set_witness :
  mem_get "rg" "example.com" "_acme-challenge"
    (backend (CleanUp (Example.deps "") Example.d "example.com" "tok" "key"
                (Example.world
                   (Example.store (Some [single_TxtRecord "abc123";
                                         single_TxtRecord "def456"])))).2)
  = inl not_found.
Proof.
  destruct (CleanUp_removes_record_set (Example.deps "") Example.d
              "example.com" "tok" "key"
              (Example.world
                 (Example.store (Some [single_TxtRecord "abc123";
                                       single_TxtRecord "def456"])))
              eq_refl) as (zone & subDomain & Hz & Hs & _ & Hget).
  assert (zone = "example.com") as -> by (vm_compute in Hz; congruence).
  assert (subDomain = "_acme-challenge") as -> by (vm_compute in Hs; congruence).
  exact Hget.
Defined.

Lemma CleanUp_then_Present_witness :
  (Present (Example.deps "") PerLoop Example.forward Example.d
     "example.com" "tok" "def456"
     (CleanUp (Example.deps "") Example.d "example.com" "tok" "abc123"
        Scenario.w_abc).2).1
  = Returned None.
Proof.
  exact (proj1 (CleanUp_then_Present (Example.deps "") PerLoop Example.forward
                  Example.d "example.com" "tok" "abc123" "example.com" "def456"
                  Scenario.w_abc ranges_over_forward eq_refl eq_refl)).
Defined.

Lemma Present_then_CleanUp_witness :
  (CleanUp (Example.deps "") Example.d "example.com" "tok" "other"
     (Present (Example.deps "") PerIteration Example.forward Example.d
        "example.com" "tok" "def456" Scenario.w_abc).2).1
  = Returned None.
Proof.
  exact (proj1 (Present_then_CleanUp (Example.deps "") PerIteration
                  Example.forward Example.d "example.com" "tok" "def456"
                  "example.com" "other" Scenario.w_abc eq_refl eq_refl)).
Defined.

(** ** Sequences of [Present], by the scope of the loop variable *)

Lemma Present_idempotent_PerIteration_witness :
  (Present (Example.deps "") PerIteration Example.forward Example.d
     "example.com" "tok" "def456"
     (Present (Example.deps "") PerIteration Example.backward Example.d
        "example.com" "tok" "def456" Scenario.w_abc).2).1
  = (Present (Example.deps "") PerIteration Example.backward Example.d
       "example.com" "tok" "def456" Scenario.w_abc).1.
Proof.
  exact (proj1 (Present_idempotent_PerIteration (Example.deps "")
                  Example.backward Example.forward Example.d
                  "example.com" "tok" "def456" Scenario.w_abc
                  ranges_over_backward ranges_over_forward)).
Defined.

Lemma Present_additive_PerIteration_witness :
  (Present (Example.deps "") PerIteration Example.forward Example.d
     "example.com" "tok" "def456"
     (Present (Example.deps "") PerIteration Example.forward Example.d
        "example.com" "tok" "abc123" Scenario.w_none).2).1
  = Returned None.
Proof.
  exact (proj1 (Present_additive_PerIteration (Example.deps "")
                  Example.forward Example.forward Example.d
                  "example.com" "abc123" "example.com" "def456" "tok"
                  "_acme-challenge.example.com." "abc123" "def456"
                  Scenario.w_none ranges_over_forward ranges_over_forward
                  eq_refl eq_refl eq_refl)).
Defined.

Lemma Present_PerLoop_not_both_witness :
  ¬ ({[ "abc123"; "def456" ]} ⊆
     stored_values "rg" "example.com" "_acme-challenge"
       (backend (Present (Example.deps "") PerLoop Example.forward Example.d
                   "example.com" "tok" "def456"
                   (Present (Example.deps "") PerLoop Example.forward Example.d
                      "example.com" "tok" "abc123" Scenario.w_none).2).2)).
Proof.
  destruct (Present_PerLoop_not_both (Example.deps "") Example.forward
              Example.d "example.com" "tok" "def456"
              (Present (Example.deps "") PerLoop Example.forward Example.d
                 "example.com" "tok" "abc123" Scenario.w_none).2
              "abc123" "def456" ranges_over_forward)
    as (zone & subDomain & Hz & Hs & Hnot).
  - discriminate.
  - vm_compute. reflexivity.
  - assert (zone = "example.com") as -> by (vm_compute in Hz; congruence).
    assert (subDomain = "_acme-challenge") as ->
      by (vm_compute in Hs; congruence).
    exact Hnot.
Defined.

Lemma NewDNSProviderConfig_errors_witness :
  azure_prefixed (ErrorString "azure: ResourceGroup is missing") = true ∨
  ∃ cause,
    (inr china : error + EnvironmentCredentialOptions) = inl cause ∧
    ErrorString "azure: ResourceGroup is missing"
    = WrapError "azidentity.NewEnvironmentCredential failed: " cause.
Proof.
  apply (NewDNSProviderConfig_errors (Cred := EnvironmentCredentialOptions) inr
           (Some {| ClientID := ""; ClientSecret := ""; TenantID := "";
                    SubscriptionID := "sub"; ResourceGroup := "";
                    PrivateZone := false; MetadataEndpoint := "";
                    CloudConfig := AzurePublic; PropagationTimeout := 0;
                    PollingInterval := 0; TTL := 60; HTTPClient := None |})).
  reflexivity.
Defined.

(** ** Which read errors are recovered *)

